(** * The MATLAB installation locator of [setup.py]

    A shallow embedding of the class [_MatlabFinder] of [src/setup.py]
    (the pre-installation step that finds MATLAB on the host and writes
    [_arch.txt]), and the properties of it that the specification states.

    Python values are modelled as follows.
    - [str] is [string]; a value that is a [str] or [None] (the [text]
      of an XML element, the attribute [found_matlab] once assigned from
      it) is [option string], [None] being Python's [None].
    - a raised exception ends the computation with [Raise e]; the
      attributes assigned before the [raise] keep their new values.
    - [dict]s and [set]s that are only looked up are [gmap]s and [gset]s.
    - the host (operating system, environment, file system, registry) is
      a record that the methods read; the attributes of [self] and the
      files written are the state that the methods thread.
    - the calls that can fail on the host fail as the host says:
      [xml.parse] of a file, and the [open], the [write]s and the close
      of the file that is written, each return or raise an exception
      that the file system gives, so that a failed write leaves no file
      or a part of it. *)

From Stdlib Require Import String Ascii List NArith DecimalString DecimalN Bool Lia.
From stdpp Require Import gmap strings list fin_maps.

Open Scope string_scope.

#[local] Arguments String.append !s1 s2 : simpl nomatch.

(** ** Python string methods *)

Module Str.

(** [s.startswith(p)] *)
Definition startswith (s p : string) : bool := String.prefix p s.

(** [s.endswith(suf)]: some tail of [s] is [suf]. *)
Fixpoint endswith (s suf : string) : bool :=
  if String.eqb s suf then true
  else match s with
       | EmptyString => false
       | String _ s' => endswith s' suf
       end.

(** [s.split(c)] for a separator of one character. *)
Fixpoint split (c : ascii) (s : string) : list string :=
  match s with
  | EmptyString => [EmptyString]
  | String a s' =>
      if Ascii.eqb a c then EmptyString :: split c s'
      else match split c s' with
           | h :: t => String a h :: t
           | [] => [String a EmptyString]
           end
  end.

(** [sep.join(l)] *)
Definition join (sep : string) (l : list string) : string := String.concat sep l.

(** Truth value of a [str]: the empty string is false. *)
Definition truthy (s : string) : bool := negb (String.eqb s "").

(** Truth value of a value that is a [str] or [None]. *)
Definition truthy_opt (o : option string) : bool :=
  match o with
  | Some s => truthy s
  | None => false
  end.

(** [c in s] for a character [c]. *)
Fixpoint has_char (c : ascii) (s : string) : bool :=
  match s with
  | EmptyString => false
  | String a s' => Ascii.eqb a c || has_char c s'
  end.

(** [str(n)] for a non-negative integer. *)
Definition of_N (n : N) : string := NilEmpty.string_of_uint (N.to_uint n).

End Str.

(** ** [posixpath]: [os.path] on Linux and macOS *)

Module posixpath.

Definition sep : string := "/".
Definition pardir : string := "..".

(** One step of the loop of [posixpath.join]: [path] joined with the
    next component [b]. *)
Definition join_step (path b : string) : string :=
  if Str.startswith b sep then b
  else if negb (Str.truthy path) || Str.endswith path sep then path ++ b
  else path ++ sep ++ b.

(** [posixpath.join(a, *p)] *)
Definition join (a : string) (p : list string) : string :=
  fold_left join_step p a.

(** The body of the loop of [posixpath.normpath] over the components. *)
Definition norm_step (initial_slashes : nat) (new_comps : list string)
  (comp : string) : list string :=
  if String.eqb comp "" || String.eqb comp "." then new_comps
  else if negb (String.eqb comp "..")
          || (Nat.eqb initial_slashes 0 && Nat.eqb (length new_comps) 0)
          || (negb (Nat.eqb (length new_comps) 0)
              && String.eqb (List.last new_comps "") "..")
       then new_comps ++ [comp]
       else List.removelast new_comps.

(** [posixpath.normpath(path)] *)
Definition normpath (path : string) : string :=
  if String.eqb path "" then "."
  else
    let initial_slashes :=
      if Str.startswith path sep then
        if Str.startswith path "//" && negb (Str.startswith path "///")
        then 2 else 1
      else 0 in
    let comps := Str.split "/" path in
    let new_comps := fold_left (norm_step initial_slashes) comps [] in
    let path := Str.join sep new_comps in
    let path :=
      match initial_slashes with
      | 0 => path
      | 1 => sep ++ path
      | _ => sep ++ sep ++ path
      end in
    if Str.truthy path then path else ".".

End posixpath.

(** ** The host *)

(** An element of an XML tree: its tag and its text ([None] when the
    element has no text). *)
Record element := { tag : string; text : option string }.

Inductive exn :=
| RuntimeError (msg : string)
| ParseError                 (* xml.etree.ElementTree.ParseError *)
| KeyError (key : string)
  (* any other exception, by the name of its class and its text: the
     OSError of a file that cannot be opened, read or written and its
     subclasses, the ValueError or LookupError of an encoding, ... *)
| PyError (cls msg : string).

(** What [xml.etree.ElementTree.parse] makes of a file: a parse error;
    another exception (the file cannot be read, its encoding is unknown
    or not supported); or a tree, of which only the children of the root
    matter here. *)
Inductive xml_file :=
| Malformed
| Fails (e : exn)
| Document (children : list element).

(** The file system, as far as [os.path], [xml.parse] and [open] observe
    and change it. *)
Record filesystem := {
  exists_ : string -> bool;          (* os.path.exists *)
  isfile : string -> bool;           (* os.path.isfile *)
  isdir : string -> bool;            (* os.path.isdir *)
  xml_parse : string -> xml_file;    (* xml.parse of the file at a path *)
  (* open(path, 'w'): the exception that it raises, if it does; when it
     does not, the file is created or emptied *)
  fopen_w : string -> option exn;
  (* root_file.write(data) on the file at a path that holds [written]:
     [None] when the data are added; otherwise the exception raised and
     what the file holds once the [with] block has closed it *)
  fwrite : string -> string -> string -> option (exn * string);
  (* the close at the end of the [with] block, on the file at a path
     that holds [written]: [None] when all of it reaches the file;
     otherwise the exception raised and what the file holds *)
  fclose : string -> string -> option (exn * string)
}.

(** The Windows registry under [HKEY_LOCAL_MACHINE], as far as [winreg]
    is asked: [inl err] is an [OSError] whose text is [err]. *)
Record registry := {
  (* OpenKey(reg, "SOFTWARE\\MathWorks\\MATLAB"), then EnumKey by index *)
  matlab_key : string + list string;
  (* OpenKey of a subkey by name, then QueryValueEx(key, "MATLABROOT")[0] *)
  matlabroot_of : string -> string + string
}.

Inductive result (A : Type) :=
| Ok (a : A)
| Raise (e : exn).
Arguments Ok {A} a.
Arguments Raise {A} e.

Record host := {
  system : string;                   (* platform.system() *)
  mac_ver_machine : string;          (* platform.mac_ver()[-1] *)
  version_info : N * N;              (* sys.version_info.major, .minor *)
  environ : gmap string string;      (* os.environ *)
  getcwd : string;                   (* os.getcwd() *)
  fs : filesystem;
  reg : registry;
  (* ntpath.join, which is os.path.join on Windows *)
  ntpath_join : string -> list string -> string;
  (* ntpath.normpath, which is os.path.normpath on Windows *)
  ntpath_normpath : string -> string;
  (* str(SUPPORTED_PYTHON_VERSIONS): the order in which a set prints is
     that of its hash table *)
  str_supported : string;
  (* build_py.run(self), the method of the base class in setuptools; it
     does not touch the attributes or the file that this class writes *)
  build_py_run : result unit
}.

(** The attributes of [self] that the methods assign, and the files that
    they have written: a path to the text that the file holds, as the
    [str] passed to [write] (the encoding and the translation of newlines
    of a file opened in text mode are below this model). *)
Record state := {
  arch : string;
  path_name : string;
  python_ver : string;
  platform : string;
  found_matlab : option string;
  files : gmap string string
}.

(** The class attributes: the state of a fresh instance. *)
Definition initial (written : gmap string string) : state :=
  {| arch := ""; path_name := ""; python_ver := ""; platform := "";
     found_matlab := Some ""; files := written |}.

Definition set_arch (v : string) (s : state) : state :=
  {| arch := v; path_name := path_name s; python_ver := python_ver s;
     platform := platform s; found_matlab := found_matlab s; files := files s |}.
Definition set_path_name (v : string) (s : state) : state :=
  {| arch := arch s; path_name := v; python_ver := python_ver s;
     platform := platform s; found_matlab := found_matlab s; files := files s |}.
Definition set_python_ver (v : string) (s : state) : state :=
  {| arch := arch s; path_name := path_name s; python_ver := v;
     platform := platform s; found_matlab := found_matlab s; files := files s |}.
Definition set_platform (v : string) (s : state) : state :=
  {| arch := arch s; path_name := path_name s; python_ver := python_ver s;
     platform := v; found_matlab := found_matlab s; files := files s |}.
Definition set_found_matlab (v : option string) (s : state) : state :=
  {| arch := arch s; path_name := path_name s; python_ver := python_ver s;
     platform := platform s; found_matlab := v; files := files s |}.
Definition set_files (v : gmap string string) (s : state) : state :=
  {| arch := arch s; path_name := path_name s; python_ver := python_ver s;
     platform := platform s; found_matlab := found_matlab s; files := v |}.

(** ** Methods as state transformers that may raise *)

Definition M (A : Type) : Type := state -> result A * state.

Definition ret {A} (a : A) : M A := fun s => (Ok a, s).
Definition raise {A} (e : exn) : M A := fun s => (Raise e, s).
Definition bind {A B} (c : M A) (k : A -> M B) : M B :=
  fun s => match c s with
           | (Ok a, s') => k a s'
           | (Raise e, s') => (Raise e, s')
           end.
Definition get : M state := fun s => (Ok s, s).
Definition modify (f : state -> state) : M unit := fun s => (Ok tt, f s).
Definition lift {A} (r : result A) : M A := fun s => (r, s).

Declare Scope py_scope.
Delimit Scope py_scope with py.
Notation "x <- c1 ;; c2" := (bind c1 (fun x => c2))
  (at level 100, c1 at next level, right associativity) : py_scope.
Notation "c1 ;; c2" := (bind c1 (fun _ => c2))
  (at level 100, right associativity) : py_scope.
Open Scope py_scope.

(** ** The class [_MatlabFinder] *)

Definition nl : string := String (ascii_of_nat 10) EmptyString.

Definition PLATFORM_DICT : gmap string string :=
  {[ "Windows" := "PATH";
     "Linux" := "LD_LIBRARY_PATH";
     "Darwin" := "DYLD_LIBRARY_PATH" ]}.

Definition MATLAB_REL : string := "R2022a".

Definition MATLAB_VER : string := "9.12".

Definition SUPPORTED_PYTHON_VERSIONS : gset string := {[ "3.8"; "3.9" ]}.

Definition VER_TO_REL : gmap string string :=
  {[ "9.6" := "R2019a";
     "9.7" := "R2019b";
     "9.8" := "R2020a";
     "9.9" := "R2020b";
     "9.10" := "R2021a";
     "9.11" := "R2021b";
     "9.12" := "R2022a" ]}.

Definition DEFAULT_INSTALLS : gmap string string :=
  {[ "Darwin" := "/Applications/MATLAB_" ++ MATLAB_REL ++ ".app";
     "Linux" := "/usr/local/MATLAB/" ++ MATLAB_REL ]}.

(** *** The error messages *)

Definition minimum_required : string :=
  "No compatible version of MATLAB was found. This feature supports MATLAB R2019a and later.".
Definition dir_not_found : string := "Directory not found: ".
Definition install_compatible : string :=
  "To install a compatible version, call python -m pip install matlabengine==".
Definition no_windows_install : string :=
  "MATLAB installation not found in Windows Registry:".
(** [unsupported_platform.format(platform=p)] *)
Definition unsupported_platform (p : string) : string :=
  p ++ " is not a supported platform.".
(** [unsupported_python.format(python=p, supported=s)] *)
Definition unsupported_python (p s : string) : string :=
  p ++ " is not supported. The supported Python versions are " ++ s ++ ".".
(** [set_path.format(path1=p1, arch=a, path2=p2)] *)
Definition set_path (p1 a p2 : string) : string :=
  "MATLAB installation not found in " ++ p1 ++ ". Add matlabroot/bin/" ++ a
  ++ " to " ++ p2 ++ ".".
(** [no_compatible_matlab.format(ver=v)] *)
Definition no_compatible_matlab (v : string) : string :=
  "No compatible MATLAB installation found in Windows Registry. This release of "
  ++ "MATLAB Engine API for Python is compatible with version " ++ v
  ++ ". The found versions were".
Definition no_matlab : string := "No MATLAB installation found in Windows Registry.".
(** [incompatible_ver.format(ver=v, found=f)] *)
Definition incompatible_ver (v f : string) : string :=
  "MATLAB version " ++ v
  ++ " was found, but MATLAB Engine API for Python is not compatible with it. "
  ++ "To install a compatible version, call python -m pip install matlabengine=="
  ++ f ++ ".".

Section Finder.

Variable h : host.

(** *** The module [os] of the host *)

Definition is_windows : bool := String.eqb (system h) "Windows".
Definition os_sep : string := if is_windows then "\" else "/".
Definition os_pathsep : ascii := if is_windows then ";"%char else ":"%char.
Definition os_pardir : string := "..".
Definition os_path_join : string -> list string -> string :=
  if is_windows then ntpath_join h else posixpath.join.
Definition os_path_normpath : string -> string :=
  if is_windows then ntpath_normpath h else posixpath.normpath.

(** *** The methods *)

Definition set_platform_and_arch : M unit :=
  modify (set_platform (system h)) ;;
  self <- get ;;
  match PLATFORM_DICT !! platform self with
  | None => raise (RuntimeError (unsupported_platform (platform self)))
  | Some name =>
      modify (set_path_name name) ;;
      if String.eqb (platform self) "Windows" then modify (set_arch "win64")
      else if String.eqb (platform self) "Linux" then modify (set_arch "glnxa64")
      else if String.eqb (platform self) "Darwin" then
        if String.eqb (mac_ver_machine h) "arm64"
        then modify (set_arch "maca64")
        else modify (set_arch "maci64")
      else raise (RuntimeError (unsupported_platform (platform self)))
  end.

Definition set_python_version : M unit :=
  let ver := version_info h in
  modify (set_python_ver (Str.of_N (fst ver) ++ "." ++ Str.of_N (snd ver))) ;;
  self <- get ;;
  if bool_decide (python_ver self ∈ SUPPORTED_PYTHON_VERSIONS) then ret tt
  else raise (RuntimeError
                (unsupported_python (python_ver self) (str_supported h))).

Definition unix_default_install_exists : M bool :=
  self <- get ;;
  match DEFAULT_INSTALLS !! platform self with
  | None => raise (KeyError (platform self))
  | Some path => ret (exists_ (fs h) path)
  end.

Definition _create_path_list : M (list string) :=
  self <- get ;;
  let path_dirs :=
    match environ h !! path_name self with
    | Some path_string => ([] ++ Str.split os_pathsep path_string)%list
    | None => []
    end in
  match path_dirs with
  | [] => raise (RuntimeError
                   (set_path (path_name self) (arch self) (path_name self)))
  | _ :: _ => ret path_dirs
  end.

(** The loop of [verify_matlab_release] over the children of the root:
    the value left in [matlab_release]. *)
Fixpoint release_loop (children : list element) : M (option string) :=
  match children with
  | [] => ret (Some "")
  | child :: rest =>
      if String.eqb (tag child) "release" then
        modify (set_found_matlab (text child)) ;;
        ret (text child)
      else release_loop rest
  end.

Definition verify_matlab_release (root : string) : M bool :=
  let version_info := os_path_join root ["VersionInfo.xml"] in
  if negb (isfile (fs h) version_info) then ret false
  else
    match xml_parse (fs h) version_info with
    | Malformed => raise ParseError
    | Fails e => raise e
    | Document tree_root =>
        matlab_release <- release_loop tree_root ;;
        if negb (bool_decide (matlab_release = Some MATLAB_REL)) then ret false
        else ret true
    end.

(** [possible_root] of [_get_matlab_root_from_unix_bin] *)
Definition possible_root (dir : string) : string :=
  os_path_normpath (os_path_join dir [os_pardir; os_pardir]).

Definition _get_matlab_root_from_unix_bin (dir : string) : M string :=
  let matlab_path := os_path_join dir ["MATLAB"] in
  let possible_root := possible_root dir in
  found <- (if isfile (fs h) matlab_path
            then verify_matlab_release possible_root
            else ret false) ;;
  ret (if found then possible_root else "").

(** The inner loop of [search_path_for_directory_unix]:
    [while not matlab_root and ending_idx < len(endings)], over the
    endings from [ending_idx] on. *)
Fixpoint ending_loop (path : string) (endings : list string)
  (matlab_root : string) : M string :=
  match endings with
  | [] => ret matlab_root
  | ending :: rest =>
      if Str.truthy matlab_root then ret matlab_root
      else
        matlab_root <- (if Str.endswith path ending
                        then _get_matlab_root_from_unix_bin path
                        else ret matlab_root) ;;
        ending_loop path rest matlab_root
  end.

(** The outer loop: [while not matlab_root and dir_idx < len(path_dirs)],
    over the directories from [dir_idx] on; it gives the values of
    [matlab_root] and [dir_idx] at the exit of the loop. *)
Fixpoint dir_loop (endings : list string) (path_dirs : list string)
  (dir_idx : nat) (matlab_root : string) : M (string * nat) :=
  match path_dirs with
  | [] => ret (matlab_root, dir_idx)
  | path :: rest =>
      if Str.truthy matlab_root then ret (matlab_root, dir_idx)
      else
        matlab_root <- ending_loop path endings matlab_root ;;
        dir_loop endings rest (S dir_idx) matlab_root
  end.

(** [endings] of [search_path_for_directory_unix] *)
Definition endings_of (a : string) : list string :=
  let dir_to_find := os_path_join "bin" [a] in
  [dir_to_find; dir_to_find ++ os_sep].

Definition search_path_for_directory_unix : M string :=
  path_dirs <- _create_path_list ;;
  self <- get ;;
  found <- dir_loop (endings_of (arch self)) path_dirs 0 "" ;;
  let matlab_root := fst found in
  self <- get ;;
  if negb (Str.truthy matlab_root) then
    match found_matlab self with
    | Some found_matlab =>
        if Str.truthy found_matlab then
          match VER_TO_REL !! found_matlab with
          | Some ver => raise (RuntimeError (incompatible_ver ver found_matlab))
          | None => raise (RuntimeError minimum_required)
          end
        else raise (RuntimeError
                      (set_path (path_name self) (arch self) (path_name self)))
    | None => raise (RuntimeError
                       (set_path (path_name self) (arch self) (path_name self)))
    end
  else if negb (isdir (fs h) matlab_root) then
    raise (RuntimeError (dir_not_found ++ " " ++ matlab_root))
  else ret matlab_root.

(** The loop of [_find_matlab_key_from_windows_registry] over the
    subkeys in the order of [EnumKey]: the values of [key_value] and
    [found_vers] at its exit. *)
Fixpoint enum_loop (sub_keys : list string) (found_vers : list string)
  : string * list string :=
  match sub_keys with
  | [] => ("", found_vers)
  | sub_key :: rest =>
      let found_vers := (found_vers ++ [sub_key])%list in
      if Str.startswith sub_key MATLAB_VER then (sub_key, found_vers)
      else enum_loop rest found_vers
  end.

Definition _find_matlab_key_from_windows_registry (key : list string)
  : M string :=
  let (key_value, found_vers) := enum_loop key [] in
  if negb (Str.truthy key_value) then
    match found_vers with
    | _ :: _ =>
        let vers := Str.join ", " found_vers in
        raise (RuntimeError
                 (no_compatible_matlab MATLAB_VER ++ " " ++ vers ++ ". "
                  ++ install_compatible ++ List.last found_vers "" ++ "."))
    | [] => raise (RuntimeError no_matlab)
    end
  else ret key_value.

Definition _get_root_from_version_key (ver_key : string) : M string :=
  match matlabroot_of (reg h) ver_key with
  | inl err => raise (RuntimeError (no_windows_install ++ " " ++ err))
  | inr matlab_root => ret matlab_root
  end.

Definition get_matlab_root_from_windows_reg : M string :=
  match matlab_key (reg h) with
  | inl err => raise (RuntimeError (no_windows_install ++ " " ++ err))
  | inr key =>
      matlab_ver_key <- _find_matlab_key_from_windows_registry key ;;
      _get_root_from_version_key matlab_ver_key
  end.

(** [file_location] of [write_text_file] *)
Definition file_location : string :=
  os_path_join (getcwd h) ["src"; "matlab"; "engine"; "_arch.txt"].

(** [open(path, 'w')]: it raises and leaves the files as they are, or it
    leaves the file at [path] empty. *)
Definition open_w (path : string) : M unit :=
  fun s =>
    match fopen_w (fs h) path with
    | Some e => (Raise e, s)
    | None => (Ok tt, set_files (<[path := ""]> (files s)) s)
    end.

(** [root_file.write(data)] on the file opened at [path]: the data are
    added to what the file holds, or the call raises, the [with] block
    closes the file, and the file holds what the file system leaves. *)
Definition file_write (path data : string) : M unit :=
  fun s =>
    let written := default "" (files s !! path) in
    match fwrite (fs h) path written data with
    | Some (e, kept) => (Raise e, set_files (<[path := kept]> (files s)) s)
    | None => (Ok tt, set_files (<[path := written ++ data]> (files s)) s)
    end.

(** The close of the file at the end of the [with] block. *)
Definition file_close (path : string) : M unit :=
  fun s =>
    let written := default "" (files s !! path) in
    match fclose (fs h) path written with
    | Some (e, kept) => (Raise e, set_files (<[path := kept]> (files s)) s)
    | None => (Ok tt, s)
    end.

Definition write_text_file (matlab_root : string) : M unit :=
  self <- get ;;
  let file_location := file_location in
  let bin_arch := os_path_join matlab_root ["bin"; arch self] in
  let engine_arch :=
    os_path_join matlab_root
      ["extern"; "engines"; "python"; "dist"; "matlab"; "engine"; arch self] in
  let extern_bin := os_path_join matlab_root ["extern"; "bin"; arch self] in
  open_w file_location ;;
  file_write file_location (arch self ++ nl) ;;
  file_write file_location (bin_arch ++ nl) ;;
  file_write file_location (engine_arch ++ nl) ;;
  file_write file_location extern_bin ;;
  file_close file_location.

Definition run : M unit :=
  set_platform_and_arch ;;
  set_python_version ;;
  self <- get ;;
  matlab_root <-
    (if String.eqb (platform self) "Windows" then
       get_matlab_root_from_windows_reg
     else
       default_exists <- unix_default_install_exists ;;
       if default_exists then
         match DEFAULT_INSTALLS !! platform self with
         | Some path => ret path
         | None => raise (KeyError (platform self))
         end
       else search_path_for_directory_unix) ;;
  write_text_file matlab_root ;;
  lift (build_py_run h).

End Finder.

(** * Notions used in the statements *)

(** The first child named [release], where the loop of
    [verify_matlab_release] stops. *)
Definition first_release (children : list element) : option element :=
  List.find (fun child => String.eqb (tag child) "release") children.

Section Candidates.

Variable h : host.

(** The release text that [verify_matlab_release] reads at [root]:
    [Some t] when [VersionInfo.xml] is there, parses and has a child
    [release], whose text is [t]. *)
Definition release_read (root : string) : option (option string) :=
  let version_info := os_path_join h root ["VersionInfo.xml"] in
  if isfile (fs h) version_info then
    match xml_parse (fs h) version_info with
    | Malformed => None
    | Fails _ => None
    | Document tree_root => text <$> first_release tree_root
    end
  else None.

(** What [verify_matlab_release] leaves in the state. *)
Definition record_release (root : string) (s : state) : state :=
  match release_read root with
  | Some t => set_found_matlab t s
  | None => s
  end.

(** What [verify_matlab_release] returns or raises. *)
Definition verify_outcome (root : string) : result bool :=
  let version_info := os_path_join h root ["VersionInfo.xml"] in
  if isfile (fs h) version_info then
    match xml_parse (fs h) version_info with
    | Malformed => Raise ParseError
    | Fails e => Raise e
    | Document tree_root =>
        Ok (bool_decide (default (Some "") (text <$> first_release tree_root)
                         = Some MATLAB_REL))
    end
  else Ok false.

(** What [_get_matlab_root_from_unix_bin] returns or raises, and what it
    leaves in the state. *)
Definition bin_outcome (dir : string) : result string :=
  if isfile (fs h) (os_path_join h dir ["MATLAB"]) then
    match verify_outcome (possible_root h dir) with
    | Ok true => Ok (possible_root h dir)
    | Ok false => Ok ""
    | Raise e => Raise e
    end
  else Ok "".

Definition bin_record (dir : string) (s : state) : state :=
  if isfile (fs h) (os_path_join h dir ["MATLAB"])
  then record_release (possible_root h dir) s
  else s.

(** [path] has one of the two endings for the architecture [a]. *)
Definition has_ending (a path : string) : bool :=
  existsb (Str.endswith path) (endings_of h a).

(** The marker file [MATLAB] is directly inside [path]. *)
Definition has_marker (path : string) : bool :=
  isfile (fs h) (os_path_join h path ["MATLAB"]).

(** One directory of the search path: what the inner loop gives for it
    and leaves in the state. *)
Definition cand_outcome (a path : string) : result string :=
  if has_ending a path then bin_outcome path else Ok "".

Definition cand_record (a path : string) (s : state) : state :=
  if has_ending a path then bin_record path s else s.

(** The state after the directories [dirs] have all been rejected. *)
Definition scan_record (a : string) (dirs : list string) (s : state) : state :=
  fold_left (fun s path => cand_record a path s) dirs s.

(** The release text read while the directory [path] is examined, if one
    is read. *)
Definition descriptor_read (a path : string) : option (option string) :=
  if has_ending a path && has_marker path
  then release_read (possible_root h path)
  else None.

(** The root derived from [path] passes [verify_matlab_release]. *)
Definition verifies (path : string) : Prop :=
  forall s, fst (verify_matlab_release h (possible_root h path) s) = Ok true.

(** [verify_matlab_release] returns false for the root derived from
    [path]. *)
Definition fails_verification (path : string) : Prop :=
  forall s, fst (verify_matlab_release h (possible_root h path) s) = Ok false.

(** The three tests of a winning directory. *)
Definition accepted (a path : string) : Prop :=
  has_ending a path = true /\ has_marker path = true /\ verifies path.

(** A directory that fails one of the three tests without an error. *)
Definition rejected (a path : string) : Prop :=
  has_ending a path = false \/ has_marker path = false
  \/ fails_verification path.

(** The message of the error that [search_path_for_directory_unix]
    raises when its loops end without a root, in the state [s]. *)
Definition no_root_message (s : state) : string :=
  match found_matlab s with
  | Some found =>
      if Str.truthy found then
        match VER_TO_REL !! found with
        | Some ver => incompatible_ver ver found
        | None => minimum_required
        end
      else set_path (path_name s) (arch s) (path_name s)
  | None => set_path (path_name s) (arch s) (path_name s)
  end.

(** Every step of [run] before [write_text_file] succeeds, with the root
    [root] and the state [s']. *)
Definition discovered (s : state) (root : string) (s' : state) : Prop :=
  exists s1 s2,
    set_platform_and_arch h s = (Ok tt, s1) /\
    set_python_version h s1 = (Ok tt, s2) /\
    ((platform s2 = "Windows" /\
      get_matlab_root_from_windows_reg h s2 = (Ok root, s'))
     \/ (platform s2 <> "Windows" /\
         unix_default_install_exists h s2 = (Ok true, s') /\
         DEFAULT_INSTALLS !! platform s2 = Some root)
     \/ (platform s2 <> "Windows" /\
         exists s3, unix_default_install_exists h s2 = (Ok false, s3) /\
                    search_path_for_directory_unix h s3 = (Ok root, s'))).

(** A step of [run] before [write_text_file] raises [e], in the state
    [s']. *)
Definition discovery_fails (s : state) (e : exn) (s' : state) : Prop :=
  set_platform_and_arch h s = (Raise e, s')
  \/ (exists s1,
        set_platform_and_arch h s = (Ok tt, s1) /\
        set_python_version h s1 = (Raise e, s'))
  \/ (exists s1 s2,
        set_platform_and_arch h s = (Ok tt, s1) /\
        set_python_version h s1 = (Ok tt, s2) /\
        platform s2 = "Windows" /\
        get_matlab_root_from_windows_reg h s2 = (Raise e, s'))
  \/ (exists s1 s2 s3,
        set_platform_and_arch h s = (Ok tt, s1) /\
        set_python_version h s1 = (Ok tt, s2) /\
        platform s2 <> "Windows" /\
        unix_default_install_exists h s2 = (Ok false, s3) /\
        search_path_for_directory_unix h s3 = (Raise e, s')).

End Candidates.

(** A component that is a plain name: not empty, no separator at either
    end. *)
Definition plain (b : string) : bool :=
  Str.truthy b && negb (Str.startswith b "/") && negb (Str.endswith b "/").

(** The file at [path] can be opened for writing, and whatever is
    written to it is written and the file closed without an error. *)
Definition writable (f : filesystem) (path : string) : Prop :=
  fopen_w f path = None
  /\ (forall written data, fwrite f path written data = None)
  /\ (forall written, fclose f path written = None).

(** [xml.parse] raises [e] for the file [file]: the parse error for a
    document that is malformed, or the error that the parser fails
    with. *)
Definition parse_raises (f : filesystem) (file : string) (e : exn) : Prop :=
  (xml_parse f file = Malformed /\ e = ParseError)
  \/ xml_parse f file = Fails e.


(** The architecture tags that [set_platform_and_arch] assigns. *)
Definition arch_tags : list string := ["win64"; "glnxa64"; "maci64"; "maca64"].

(** The host [h] with the file system [f]. *)
Definition with_fs (f : filesystem) (h : host) : host :=
  {| system := system h; mac_ver_machine := mac_ver_machine h;
     version_info := version_info h; environ := environ h;
     getcwd := getcwd h; fs := f; reg := reg h;
     ntpath_join := ntpath_join h; ntpath_normpath := ntpath_normpath h;
     str_supported := str_supported h; build_py_run := build_py_run h |}.

(** *** The word "newest" of the specification

    The specification calls the version named in the install hint the
    newest one found. Following its words, and not the code: versions
    compare as the lists of their dotted numbers. *)

Definition spec_version_numbers (v : string) : list N :=
  map (fun c => match NilEmpty.uint_of_string c with
                | Some u => N.of_uint u
                | None => 0%N
                end)
      (Str.split "." v).

Fixpoint spec_numbers_ltb (v w : list N) : bool :=
  match v, w with
  | _, [] => false
  | [], _ :: _ => true
  | x :: v', y :: w' => (x <? y)%N || ((x =? y)%N && spec_numbers_ltb v' w')
  end.

Definition spec_older (v w : string) : bool :=
  spec_numbers_ltb (spec_version_numbers v) (spec_version_numbers w).

Definition spec_newest (found : list string) (v : string) : Prop :=
  In v found /\ Forall (fun w => spec_older v w = false) found.

(** ** Hosts of the examples *)

Definition in_paths (l : list string) (p : string) : bool :=
  existsb (String.eqb p) l.

(** The directory of a file: its path up to the last separator. *)
Fixpoint parent_dir (p : string) : string :=
  match p with
  | EmptyString => EmptyString
  | String c rest =>
      if Str.has_char "/" rest then String c (parent_dir rest)
      else EmptyString
  end.

(** A file system given by its directories, its files, and the XML files
    among them that parse. A file can be opened for writing when its
    directory is there, and then written and closed. *)
Definition example_fs (dirs files : list string)
  (xmls : list (string * list element)) : filesystem :=
  {| exists_ := fun p => in_paths dirs p || in_paths files p;
     isfile := in_paths files;
     isdir := in_paths dirs;
     xml_parse := fun p =>
       match List.find (fun x => String.eqb (fst x) p) xmls with
       | Some x => Document (snd x)
       | None => Malformed
       end;
     fopen_w := fun p =>
       if in_paths dirs (parent_dir p) then None
       else Some (PyError "FileNotFoundError"
                    "[Errno 2] No such file or directory");
     fwrite := fun _ _ _ => None;
     fclose := fun _ _ => None |}.

(** The directories of the checkout in which the examples run. *)
Definition checkout : list string :=
  ["/home/user/matlabengine"; "/home/user/matlabengine/src";
   "/home/user/matlabengine/src/matlab";
   "/home/user/matlabengine/src/matlab/engine"].

Definition no_registry : registry :=
  {| matlab_key := inl "[WinError 2]"; matlabroot_of := fun _ => inl "[WinError 2]" |}.

(** A Linux host with Python 3.9. *)
Definition linux_host (env : gmap string string) (f : filesystem) : host :=
  {| system := "Linux"; mac_ver_machine := ""; version_info := (3, 9)%N;
     environ := env; getcwd := "/home/user/matlabengine"; fs := f;
     reg := no_registry;
     ntpath_join := fun a _ => a; ntpath_normpath := fun a => a;
     str_supported := "{'3.8', '3.9'}"; build_py_run := Ok tt |}.

(** A Windows host with Python 3.9, whose [os.path.join] is given for the
    simple case of relative components. *)
Definition windows_host (r : registry) : host :=
  {| system := "Windows"; mac_ver_machine := ""; version_info := (3, 9)%N;
     environ := ∅; getcwd := "C:\pkg";
     fs := example_fs [] [] []; reg := r;
     ntpath_join := fun a p => fold_left (fun path b => path ++ "\" ++ b) p a;
     ntpath_normpath := fun a => a;
     str_supported := "{'3.8', '3.9'}"; build_py_run := Ok tt |}.

(** A host whose system is not one of [PLATFORM_DICT]. *)
Definition freebsd_host : host :=
  {| system := "FreeBSD"; mac_ver_machine := ""; version_info := (3, 9)%N;
     environ := ∅; getcwd := "/home/user/matlabengine";
     fs := example_fs [] [] []; reg := no_registry;
     ntpath_join := fun a _ => a; ntpath_normpath := fun a => a;
     str_supported := "{'3.8', '3.9'}"; build_py_run := Ok tt |}.

(** A file system where the default location of the installation exists
    but is a plain file, not a directory: nothing is under it, and no
    XML file parses. The checkout is there. *)
Definition only_default_exists : filesystem :=
  example_fs checkout ["/usr/local/MATLAB/R2022a"] [].

(** The state after [set_platform_and_arch] on Linux. *)
Definition linux_state : state :=
  {| arch := "glnxa64"; path_name := "LD_LIBRARY_PATH"; python_ver := "3.9";
     platform := "Linux"; found_matlab := Some ""; files := ∅ |}.

(** The children of the root of a [VersionInfo.xml]. *)
Definition version_info_xml (version release : string) : list element :=
  [ {| tag := "version"; text := Some version |};
    {| tag := "release"; text := Some release |};
    {| tag := "description"; text := None |} ].

(** A machine with several installations: [/opt/y] holds R2022a,
    [/opt/old] holds R2021b, the [VersionInfo.xml] of [/opt/bad] does not
    parse, [/opt/e] has none, and [/opt/x] has no [MATLAB] file in its
    [bin/glnxa64]. *)
Definition example_tree : filesystem :=
  example_fs
    (checkout ++
     ["/opt/x"; "/opt/x/bin/glnxa64"; "/opt/y"; "/opt/y/bin/glnxa64";
      "/opt/old"; "/opt/old/bin/glnxa64"; "/opt/bad"; "/opt/bad/bin/glnxa64";
      "/opt/e"; "/opt/e/bin/glnxa64"])
    ["/opt/y/bin/glnxa64/MATLAB"; "/opt/y/VersionInfo.xml";
     "/opt/old/bin/glnxa64/MATLAB"; "/opt/old/VersionInfo.xml";
     "/opt/bad/bin/glnxa64/MATLAB"; "/opt/bad/VersionInfo.xml";
     "/opt/e/bin/glnxa64/MATLAB"]
    [("/opt/y/VersionInfo.xml", version_info_xml "9.12.0.1884302" "R2022a");
     ("/opt/old/VersionInfo.xml", version_info_xml "9.11.0.1769968" "R2021b")].

(** The search path holds the directories [dirs]. *)
Definition linux_with_path (dirs : string) : host :=
  linux_host {[ "LD_LIBRARY_PATH" := dirs ]} example_tree.

(** The host [h] with the environment [env]. *)
Definition with_environ (env : gmap string string) (h : host) : host :=
  {| system := system h; mac_ver_machine := mac_ver_machine h;
     version_info := version_info h; environ := env;
     getcwd := getcwd h; fs := fs h; reg := reg h;
     ntpath_join := ntpath_join h; ntpath_normpath := ntpath_normpath h;
     str_supported := str_supported h; build_py_run := build_py_run h |}.

(** The host [h] with the registry [r]. *)
Definition with_reg (r : registry) (h : host) : host :=
  {| system := system h; mac_ver_machine := mac_ver_machine h;
     version_info := version_info h; environ := environ h;
     getcwd := getcwd h; fs := fs h; reg := r;
     ntpath_join := ntpath_join h; ntpath_normpath := ntpath_normpath h;
     str_supported := str_supported h; build_py_run := build_py_run h |}.

(** A Linux host with Python 3.10. *)
Definition linux_python_3_10 : host :=
  {| system := "Linux"; mac_ver_machine := ""; version_info := (3, 10)%N;
     environ := ∅; getcwd := "/home/user/matlabengine"; fs := example_tree;
     reg := no_registry;
     ntpath_join := fun a _ => a; ntpath_normpath := fun a => a;
     str_supported := "{'3.9', '3.8'}"; build_py_run := Ok tt |}.

(** The installation of R2022a under [/opt/y], on a machine where the
    directory [src/matlab/engine] of the checkout is missing. *)
Definition tree_without_checkout : filesystem :=
  example_fs
    ["/home/user/matlabengine"; "/opt/y"; "/opt/y/bin/glnxa64"]
    ["/opt/y/bin/glnxa64/MATLAB"; "/opt/y/VersionInfo.xml"]
    [("/opt/y/VersionInfo.xml", version_info_xml "9.12.0.1884302" "R2022a")].

(** A file system where the [VersionInfo.xml] of [/opt/enc] declares an
    encoding that the parser does not know. *)
Definition tree_unknown_encoding : filesystem :=
  {| exists_ := in_paths ["/opt/enc"; "/opt/enc/bin/glnxa64";
                          "/opt/enc/bin/glnxa64/MATLAB";
                          "/opt/enc/VersionInfo.xml"];
     isfile := in_paths ["/opt/enc/bin/glnxa64/MATLAB";
                         "/opt/enc/VersionInfo.xml"];
     isdir := in_paths ["/opt/enc"; "/opt/enc/bin/glnxa64"];
     xml_parse := fun _ => Fails (PyError "LookupError" "unknown encoding");
     fopen_w := fun _ => None;
     fwrite := fun _ _ _ => None;
     fclose := fun _ _ => None |}.

(** The checkout on the Windows host of the examples. *)
Definition windows_checkout : filesystem :=
  {| exists_ := in_paths ["C:\pkg"; "C:\pkg\src"; "C:\pkg\src\matlab";
                          "C:\pkg\src\matlab\engine"];
     isfile := fun _ => false;
     isdir := in_paths ["C:\pkg"; "C:\pkg\src"; "C:\pkg\src\matlab";
                        "C:\pkg\src\matlab\engine"];
     xml_parse := fun _ => Malformed;
     fopen_w := fun p =>
       if String.eqb p "C:\pkg\src\matlab\engine\_arch.txt" then None
       else Some (PyError "FileNotFoundError"
                    "[Errno 2] No such file or directory");
     fwrite := fun _ _ _ => None;
     fclose := fun _ _ => None |}.

(** A registry with two versions installed, of which the second is the
    expected one. *)
Definition example_registry : registry :=
  {| matlab_key := inr ["9.11.0"; "9.12.3"];
     matlabroot_of := fun k =>
       if String.eqb k "9.12.3" then inr "C:\Program Files\MATLAB\R2022a"
       else inl "[WinError 2]" |}.

(** A registry where the value of the expected version cannot be read. *)
Definition unreadable_registry : registry :=
  {| matlab_key := inr ["9.12"];
     matlabroot_of := fun _ => inl "[WinError 2]" |}.

(** A machine where the [VersionInfo.xml] of [/opt/v] gives a version
    number as its release, and the one of [/opt/n] a release without
    text. *)
Definition example_tree_versions : filesystem :=
  example_fs
    ["/opt/v"; "/opt/v/bin/glnxa64"; "/opt/n"; "/opt/n/bin/glnxa64"]
    ["/opt/v/bin/glnxa64/MATLAB"; "/opt/v/VersionInfo.xml";
     "/opt/n/bin/glnxa64/MATLAB"; "/opt/n/VersionInfo.xml"]
    [("/opt/v/VersionInfo.xml", version_info_xml "9.11.0.1769968" "9.11");
     ("/opt/n/VersionInfo.xml",
      [ {| tag := "version"; text := Some "9.11.0.1769968" |};
        {| tag := "release"; text := None |} ])].

(** * Properties *)

(** Case analysis on an entry [H] of a table given by its entries. *)
Ltac table_entries H :=
  repeat (apply lookup_insert_Some in H;
          destruct H as [[<- <-] | [_ H]]; [reflexivity |]);
  apply lookup_singleton_Some in H; destruct H as [<- <-]; reflexivity.

(** ** Strings and paths *)

Lemma truthy_true (s : string) : Str.truthy s = true <-> s <> "".
Proof.
  unfold Str.truthy. rewrite negb_true_iff. apply String.eqb_neq.
Qed.

Lemma truthy_false (s : string) : Str.truthy s = false <-> s = "".
Proof.
  unfold Str.truthy. rewrite negb_false_iff. apply String.eqb_eq.
Qed.

Lemma append_empty_r (s : string) : s ++ "" = s.
Proof. induction s as [|a s IH]; simpl; [reflexivity | now rewrite IH]. Qed.

Lemma append_assoc (s t u : string) : (s ++ t) ++ u = s ++ t ++ u.
Proof. induction s as [|a s IH]; simpl; [reflexivity | now rewrite IH]. Qed.

Lemma endswith_refl (s : string) : Str.endswith s s = true.
Proof. destruct s; simpl; now rewrite ?String.eqb_refl, ?Ascii.eqb_refl. Qed.

Lemma endswith_unfold (s suf : string) :
  Str.endswith s suf =
  if String.eqb s suf then true
  else match s with
       | EmptyString => false
       | String _ s' => Str.endswith s' suf
       end.
Proof. destruct s; reflexivity. Qed.

(** [endswith] is the suffix relation. *)
Lemma endswith_iff (s suf : string) :
  Str.endswith s suf = true <-> exists p, s = p ++ suf.
Proof.
  induction s as [|a s IH]; rewrite endswith_unfold.
  - destruct (String.eqb_spec "" suf) as [<- | Hne].
    + split; [exists ""; reflexivity | reflexivity].
    + split; [discriminate |].
      intros [p Hp]. destruct p; simpl in Hp; [congruence | discriminate].
  - destruct (String.eqb_spec (String a s) suf) as [<- | Hne].
    + split; [exists ""; reflexivity | reflexivity].
    + rewrite IH. split.
      * intros [p ->]. now exists (String a p).
      * intros [p Hp]. destruct p as [|b p]; simpl in Hp; [congruence |].
        injection Hp as _ ->. now exists p.
Qed.

(** [startswith] is the prefix relation. *)
Lemma startswith_iff (s p : string) :
  Str.startswith s p = true <-> exists r, s = p ++ r.
Proof.
  unfold Str.startswith. revert s.
  induction p as [|a p IH]; intros s; simpl.
  - split; [exists s; reflexivity | now destruct s].
  - destruct s as [|b s].
    + split; [discriminate | intros [r Hr]; discriminate].
    + simpl. destruct (ascii_dec a b) as [<- | Hne].
      * rewrite IH. split; intros [r Hr]; exists r; congruence.
      * split; [discriminate | intros [r Hr]; congruence].
Qed.

(** [normpath] never gives the empty string: an empty result is ["."]. *)
Lemma normpath_truthy (path : string) :
  Str.truthy (posixpath.normpath path) = true.
Proof.
  unfold posixpath.normpath.
  destruct (String.eqb path ""); [reflexivity |].
  cbv zeta.
  match goal with |- context [if Str.truthy ?p then _ else _] =>
    destruct (Str.truthy p) eqn:E end; [exact E | reflexivity].
Qed.

(** ** The release check and the scan, directory by directory *)

Lemma release_loop_eq (children : list element) (s : state) :
  release_loop children s =
  match first_release children with
  | Some child => (Ok (text child), set_found_matlab (text child) s)
  | None => (Ok (Some ""), s)
  end.
Proof.
  induction children as [|child rest IH]; simpl; [reflexivity |].
  destruct (String.eqb (tag child) "release"); [reflexivity | exact IH].
Qed.

Section Scan.

Variable h : host.

Lemma verify_eq (root : string) (s : state) :
  verify_matlab_release h root s
  = (verify_outcome h root, record_release h root s).
Proof.
  unfold verify_matlab_release, verify_outcome, record_release, release_read.
  destruct (isfile _ _); simpl; [| reflexivity].
  destruct (xml_parse _ _) as [|e|tree_root]; [reflexivity | reflexivity |].
  unfold bind. rewrite release_loop_eq.
  destruct (first_release tree_root) as [child|]; simpl;
    try case_bool_decide; reflexivity.
Qed.

Lemma bin_eq (dir : string) (s : state) :
  _get_matlab_root_from_unix_bin h dir s
  = (bin_outcome h dir, bin_record h dir s).
Proof.
  unfold _get_matlab_root_from_unix_bin, bin_outcome, bin_record, bind.
  destruct (isfile _ _); [| reflexivity].
  rewrite verify_eq.
  destruct (verify_outcome _ _) as [[|]|e]; reflexivity.
Qed.

Lemma record_release_twice (root : string) (s : state) :
  record_release h root (record_release h root s) = record_release h root s.
Proof. unfold record_release. destruct (release_read h root); reflexivity. Qed.

Lemma bin_record_twice (dir : string) (s : state) :
  bin_record h dir (bin_record h dir s) = bin_record h dir s.
Proof.
  unfold bin_record. destruct (isfile _ _); [| reflexivity].
  apply record_release_twice.
Qed.

Lemma ending_loop_truthy (path : string) (endings : list string)
  (matlab_root : string) (s : state) :
  Str.truthy matlab_root = true ->
  ending_loop h path endings matlab_root s = (Ok matlab_root, s).
Proof. intros Ht. destruct endings; simpl; [| rewrite Ht]; reflexivity. Qed.

(** One directory of the path: [_get_matlab_root_from_unix_bin] runs on
    it when it has one of the endings, and running it again for a second
    ending changes nothing. *)
Lemma ending_loop_eq (path : string) (endings : list string) (s : state) :
  ending_loop h path endings "" s =
  if existsb (Str.endswith path) endings
  then (bin_outcome h path, bin_record h path s)
  else (Ok "", s).
Proof.
  revert s. induction endings as [|ending rest IH]; intros s; simpl;
    [reflexivity |].
  unfold bind. destruct (Str.endswith path ending); simpl.
  - rewrite bin_eq. destruct (bin_outcome h path) as [r|e] eqn:Hout;
      [| reflexivity].
    destruct (Str.truthy r) eqn:Hr.
    + now apply ending_loop_truthy.
    + apply truthy_false in Hr. subst r. rewrite IH, bin_record_twice.
      now destruct (existsb _ rest).
  - apply IH.
Qed.

Lemma dir_loop_truthy (endings dirs : list string) (i : nat) (r : string)
  (s : state) :
  Str.truthy r = true -> dir_loop h endings dirs i r s = (Ok (r, i), s).
Proof. intros Hr. destruct dirs; simpl; [| rewrite Hr]; reflexivity. Qed.

Lemma dir_loop_step (a path : string) (rest : list string) (i : nat)
  (s : state) :
  dir_loop h (endings_of h a) (path :: rest) i "" s =
  match cand_outcome h a path with
  | Ok r =>
      if Str.truthy r then (Ok (r, S i), cand_record h a path s)
      else dir_loop h (endings_of h a) rest (S i) "" (cand_record h a path s)
  | Raise e => (Raise e, cand_record h a path s)
  end.
Proof.
  change (dir_loop h (endings_of h a) (path :: rest) i "" s)
    with (bind (ending_loop h path (endings_of h a) "")
            (dir_loop h (endings_of h a) rest (S i)) s).
  unfold bind. rewrite ending_loop_eq.
  unfold cand_outcome, cand_record, has_ending.
  destruct (existsb _ _); [destruct (bin_outcome h path) as [r|e] |]; simpl;
    try reflexivity.
  destruct (Str.truthy r) eqn:Hr.
  - now apply dir_loop_truthy.
  - apply truthy_false in Hr. now subst r.
Qed.

(** Directories that are rejected are passed over, each leaving its
    record in the state. *)
Lemma dir_loop_rejected (a : string) (pre rest : list string) (i : nat)
  (s : state) :
  Forall (fun path => cand_outcome h a path = Ok "") pre ->
  dir_loop h (endings_of h a) (pre ++ rest) i "" s =
  dir_loop h (endings_of h a) rest (length pre + i) "" (scan_record h a pre s).
Proof.
  intros Hpre. revert i s.
  induction Hpre as [|path pre Hpath _ IH]; intros i s; [reflexivity |].
  change ((path :: pre) ++ rest)%list with (path :: (pre ++ rest))%list.
  rewrite dir_loop_step, Hpath. simpl.
  rewrite IH. f_equal. lia.
Qed.

(** The scan only assigns [found_matlab]. *)
Lemma cand_record_fields (a path : string) (s : state) :
  arch (cand_record h a path s) = arch s
  /\ path_name (cand_record h a path s) = path_name s
  /\ python_ver (cand_record h a path s) = python_ver s
  /\ platform (cand_record h a path s) = platform s
  /\ files (cand_record h a path s) = files s.
Proof.
  unfold cand_record, bin_record, record_release.
  destruct (has_ending h a path); [| easy].
  destruct (isfile _ _); [| easy].
  destruct (release_read _ _); easy.
Qed.

Lemma scan_record_fields (a : string) (dirs : list string) (s : state) :
  arch (scan_record h a dirs s) = arch s
  /\ path_name (scan_record h a dirs s) = path_name s
  /\ python_ver (scan_record h a dirs s) = python_ver s
  /\ platform (scan_record h a dirs s) = platform s
  /\ files (scan_record h a dirs s) = files s.
Proof.
  revert s. induction dirs as [|path dirs IH]; intros s; [easy |].
  unfold scan_record in *. simpl.
  destruct (IH (cand_record h a path s)) as (-> & -> & -> & -> & ->).
  apply cand_record_fields.
Qed.

(** [found_matlab] after a directory: the release text read there, or
    what it was. *)
Lemma cand_record_found (a path : string) (s : state) :
  found_matlab (cand_record h a path s)
  = default (found_matlab s) (descriptor_read h a path).
Proof.
  unfold cand_record, descriptor_read, bin_record, record_release, has_marker.
  destruct (has_ending h a path); [| reflexivity].
  destruct (isfile _ _); [| reflexivity].
  simpl. destruct (release_read _ _); reflexivity.
Qed.

Lemma scan_record_found (a : string) (dirs : list string) (s : state) :
  found_matlab (scan_record h a dirs s)
  = fold_left (fun found path => default found (descriptor_read h a path))
      dirs (found_matlab s).
Proof.
  revert s. induction dirs as [|path dirs IH]; intros s; [reflexivity |].
  unfold scan_record in *. simpl. now rewrite IH, cand_record_found.
Qed.

End Scan.

(** ** [verify_matlab_release] *)

(** C6. [verify_matlab_release] returns false when [VersionInfo.xml] is
    not a file under the root. When the file is there and parses, the
    text of its first child named [release] is assigned to
    [found_matlab], whether it matches or not, and the method returns
    true exactly when that text is the expected release; without such a
    child it returns false. A file that does not parse raises the parse
    error. *)
Theorem verify_matlab_release_spec (h : host) (root : string) (s : state) :
  let version_info := os_path_join h root ["VersionInfo.xml"] in
  (isfile (fs h) version_info = false ->
   verify_matlab_release h root s = (Ok false, s))
  /\ (isfile (fs h) version_info = true ->
      xml_parse (fs h) version_info = Malformed ->
      verify_matlab_release h root s = (Raise ParseError, s))
  /\ (forall tree_root child,
        isfile (fs h) version_info = true ->
        xml_parse (fs h) version_info = Document tree_root ->
        first_release tree_root = Some child ->
        exists b,
          verify_matlab_release h root s
          = (Ok b, set_found_matlab (text child) s)
          /\ (b = true <-> text child = Some MATLAB_REL))
  /\ (forall tree_root,
        isfile (fs h) version_info = true ->
        xml_parse (fs h) version_info = Document tree_root ->
        first_release tree_root = None ->
        verify_matlab_release h root s = (Ok false, s)).
Proof.
  intros version_info. rewrite verify_eq.
  unfold verify_outcome, record_release, release_read.
  fold version_info.
  repeat split.
  - intros ->. reflexivity.
  - intros -> ->. reflexivity.
  - intros tree_root child -> -> ->. simpl.
    exists (bool_decide (text child = Some MATLAB_REL)).
    split; [reflexivity |]. apply bool_decide_eq_true.
  - intros tree_root -> -> ->. reflexivity.
Qed.

Lemma verify_matlab_release_spec_witness :
  verify_matlab_release (linux_with_path "") "/opt/x" linux_state
  = (Ok false, linux_state)
  /\ verify_matlab_release (linux_with_path "") "/opt/bad" linux_state
     = (Raise ParseError, linux_state)
  /\ (exists b,
        verify_matlab_release (linux_with_path "") "/opt/old" linux_state
        = (Ok b, set_found_matlab (Some "R2021b") linux_state)
        /\ (b = true <-> Some "R2021b" = Some MATLAB_REL)).
Proof.
  split; [| split].
  - apply (verify_matlab_release_spec (linux_with_path "") "/opt/x").
    reflexivity.
  - apply (verify_matlab_release_spec (linux_with_path "") "/opt/bad");
      reflexivity.
  - apply (proj1 (proj2 (proj2
      (verify_matlab_release_spec (linux_with_path "") "/opt/old" linux_state)))
      (version_info_xml "9.11.0.1769968" "R2021b")
      {| tag := "release"; text := Some "R2021b" |}); reflexivity.
Defined.

(** ** [search_path_for_directory_unix] *)

Lemma split_not_nil (c : ascii) (s : string) : Str.split c s <> [].
Proof.
  destruct s as [|a s]; simpl; [discriminate |].
  destruct (Ascii.eqb a c); [discriminate |].
  destruct (Str.split c s); discriminate.
Qed.

Section Search.

Variable h : host.

Lemma create_path_list_set (s : state) (path_string : string) :
  environ h !! path_name s = Some path_string ->
  _create_path_list h s = (Ok (Str.split (os_pathsep h) path_string), s).
Proof.
  intros Henv. unfold _create_path_list, bind, get. rewrite Henv. simpl.
  destruct (Str.split _ _) eqn:Hsplit; [| reflexivity].
  now apply split_not_nil in Hsplit.
Qed.

Lemma create_path_list_unset (s : state) :
  environ h !! path_name s = None ->
  _create_path_list h s
  = (Raise (RuntimeError (set_path (path_name s) (arch s) (path_name s))), s).
Proof.
  intros Henv. unfold _create_path_list, bind, get. now rewrite Henv.
Qed.

(** The search in terms of its loop. *)
Lemma search_eq (s : state) (path_string : string) :
  environ h !! path_name s = Some path_string ->
  search_path_for_directory_unix h s =
  match dir_loop h (endings_of h (arch s))
          (Str.split (os_pathsep h) path_string) 0 "" s with
  | (Ok found, s') =>
      if negb (Str.truthy (fst found))
      then (Raise (RuntimeError (no_root_message s')), s')
      else if negb (isdir (fs h) (fst found))
           then (Raise (RuntimeError (dir_not_found ++ " " ++ fst found)), s')
           else (Ok (fst found), s')
  | (Raise e, s') => (Raise e, s')
  end.
Proof.
  intros Henv. unfold search_path_for_directory_unix.
  unfold bind at 1. rewrite (create_path_list_set _ _ Henv).
  unfold bind at 1. unfold get at 1. unfold bind at 1.
  destruct (dir_loop _ _ _ _ _ _) as [[found|e] s']; [| reflexivity].
  unfold bind, get, no_root_message.
  destruct (negb (Str.truthy (fst found))).
  - destruct (found_matlab s') as [f|]; [| reflexivity].
    destruct (Str.truthy f); [| reflexivity].
    destruct (VER_TO_REL !! f); reflexivity.
  - destruct (negb (isdir _ _)); reflexivity.
Qed.

(** When every directory is rejected, the search fails with the message
    that the last value of [found_matlab] selects. *)
Lemma search_all_rejected (s : state) (path_string : string) :
  environ h !! path_name s = Some path_string ->
  Forall (fun path => cand_outcome h (arch s) path = Ok "")
    (Str.split (os_pathsep h) path_string) ->
  let s' := scan_record h (arch s) (Str.split (os_pathsep h) path_string) s in
  search_path_for_directory_unix h s
  = (Raise (RuntimeError (no_root_message s')), s').
Proof.
  intros Henv Hrej s'. rewrite (search_eq _ _ Henv).
  pose proof (dir_loop_rejected h (arch s) _ [] 0 s Hrej) as Hloop.
  rewrite app_nil_r in Hloop. rewrite Hloop. reflexivity.
Qed.

End Search.

(** *** The first directory that passes wins *)

Section FirstMatch.

Variable h : host.
Hypothesis posix : system h <> "Windows".

Lemma posix_is_windows : is_windows h = false.
Proof. unfold is_windows. now apply String.eqb_neq. Qed.

Lemma posix_join : os_path_join h = posixpath.join.
Proof. unfold os_path_join. now rewrite posix_is_windows. Qed.

Lemma posix_normpath : os_path_normpath h = posixpath.normpath.
Proof. unfold os_path_normpath. now rewrite posix_is_windows. Qed.

Lemma posix_sep : os_sep h = "/".
Proof. unfold os_sep. now rewrite posix_is_windows. Qed.

Lemma posix_pathsep : os_pathsep h = ":"%char.
Proof. unfold os_pathsep. now rewrite posix_is_windows. Qed.

(** The derived root is the directory two levels up, normalized, and is
    never the empty string. *)
Lemma possible_root_posix (dir : string) :
  possible_root h dir
  = posixpath.normpath (posixpath.join dir [".."; ".."]).
Proof. unfold possible_root. now rewrite posix_join, posix_normpath. Qed.

Lemma possible_root_truthy (dir : string) :
  Str.truthy (possible_root h dir) = true.
Proof. rewrite possible_root_posix. apply normpath_truthy. Qed.

Lemma accepted_outcome (a path : string) :
  accepted h a path -> cand_outcome h a path = Ok (possible_root h path).
Proof.
  intros (Hend & Hmark & Hver).
  unfold cand_outcome, bin_outcome. unfold has_marker in Hmark.
  rewrite Hend, Hmark.
  specialize (Hver (initial ∅)). rewrite verify_eq in Hver. simpl in Hver.
  now rewrite Hver.
Qed.

End FirstMatch.

Lemma rejected_outcome (h : host) (a path : string) :
  rejected h a path -> cand_outcome h a path = Ok "".
Proof.
  unfold cand_outcome, bin_outcome.
  intros [Hend | [Hmark | Hver]].
  - now rewrite Hend.
  - unfold has_marker in Hmark. rewrite Hmark. now destruct (has_ending _ _ _).
  - specialize (Hver (initial ∅)). rewrite verify_eq in Hver. simpl in Hver.
    rewrite Hver. destruct (has_ending h a path); [| reflexivity].
    now destruct (isfile (fs h) _).
Qed.

(** C2, as amended. On Linux and macOS, when the directories before
    [path] in the search path each fail one of the three tests without an
    error, [path] passes the three of them, and the root derived from
    [path] is a directory, [search_path_for_directory_unix] returns that
    root, which is the directory two levels above [path], normalized. The
    loop stops there: [dir_idx] is one past the position of [path], and
    the directories after it play no part. *)
Theorem search_first_match (h : host) (s : state) (path_string : string)
  (pre post : list string) (path : string) :
  system h <> "Windows" ->
  environ h !! path_name s = Some path_string ->
  Str.split (os_pathsep h) path_string = (pre ++ path :: post)%list ->
  Forall (rejected h (arch s)) pre ->
  accepted h (arch s) path ->
  isdir (fs h) (possible_root h path) = true ->
  possible_root h path = posixpath.normpath (posixpath.join path [".."; ".."])
  /\ exists s',
      search_path_for_directory_unix h s = (Ok (possible_root h path), s')
      /\ dir_loop h (endings_of h (arch s)) (pre ++ path :: post) 0 "" s
         = (Ok (possible_root h path, S (length pre)), s').
Proof.
  intros Hposix Henv Hsplit Hpre Hpath Hdir.
  split; [now apply possible_root_posix |].
  assert (Hloop :
    dir_loop h (endings_of h (arch s)) (pre ++ path :: post) 0 "" s
    = (Ok (possible_root h path, S (length pre)),
       cand_record h (arch s) path (scan_record h (arch s) pre s))).
  { rewrite dir_loop_rejected.
    - rewrite dir_loop_step, (accepted_outcome h _ _ Hpath).
      rewrite (possible_root_truthy h Hposix). do 3 f_equal. lia.
    - eapply Forall_impl; [exact Hpre |].
      intros p Hp. now apply rejected_outcome. }
  eexists. split; [| exact Hloop].
  rewrite (search_eq h s path_string Henv), Hsplit, Hloop. simpl.
  now rewrite (possible_root_truthy h Hposix), Hdir.
Qed.

Lemma search_first_match_witness :
  exists s',
    search_path_for_directory_unix
      (linux_with_path "/opt/x/bin/glnxa64:/opt/y/bin/glnxa64/") linux_state
    = (Ok "/opt/y", s').
Proof.
  destruct (search_first_match
              (linux_with_path "/opt/x/bin/glnxa64:/opt/y/bin/glnxa64/")
              linux_state "/opt/x/bin/glnxa64:/opt/y/bin/glnxa64/"
              ["/opt/x/bin/glnxa64"] [] "/opt/y/bin/glnxa64/")
    as (_ & s' & Hsearch & _).
  - discriminate.
  - reflexivity.
  - reflexivity.
  - constructor; [| constructor]. right. left. reflexivity.
  - split; [reflexivity | split; [reflexivity | intros s; reflexivity]].
  - reflexivity.
  - exists s'. exact Hsearch.
Defined.

(** C2, as stated, fails: a directory that comes first, has the ending
    and the [MATLAB] file, and whose [VersionInfo.xml] does not parse, is
    not a directory that passes the three tests, and yet the directory
    after it, which passes them, is not returned: the search ends with
    the parse error. *)
Lemma search_first_match_counterexample :
  let h := linux_with_path "/opt/bad/bin/glnxa64:/opt/y/bin/glnxa64/" in
  Str.split (os_pathsep h) "/opt/bad/bin/glnxa64:/opt/y/bin/glnxa64/"
  = ["/opt/bad/bin/glnxa64"; "/opt/y/bin/glnxa64/"]
  /\ ~ accepted h (arch linux_state) "/opt/bad/bin/glnxa64"
  /\ accepted h (arch linux_state) "/opt/y/bin/glnxa64/"
  /\ isdir (fs h) (possible_root h "/opt/y/bin/glnxa64/") = true
  /\ search_path_for_directory_unix h linux_state
     = (Raise ParseError, linux_state).
Proof.
  intros h. split; [reflexivity |]. split; [| split; [| split]].
  - intros (_ & _ & Hver). specialize (Hver linux_state). discriminate.
  - split; [reflexivity | split; [reflexivity | intros s; reflexivity]].
  - reflexivity.
  - reflexivity.
Qed.

(** *** The failure when no directory passes *)

(** No release name of the table is one of its keys, which are version
    numbers. *)
Lemma release_not_a_version (ver rel : string) :
  VER_TO_REL !! ver = Some rel -> VER_TO_REL !! rel = None.
Proof. intros H. unfold VER_TO_REL in H. table_entries H. Qed.

Lemma known_release_truthy (ver rel : string) :
  VER_TO_REL !! ver = Some rel ->
  Str.truthy ver = true /\ Str.truthy rel = true.
Proof. intros H. unfold VER_TO_REL in H. split; table_entries H. Qed.

(** So a release name that the table knows, once in [found_matlab],
    selects the message for releases older than R2019a. *)
Lemma known_release_message (s : state) (ver rel : string) :
  VER_TO_REL !! ver = Some rel ->
  found_matlab s = Some rel ->
  no_root_message s = minimum_required.
Proof.
  intros Hver Hfound. unfold no_root_message. rewrite Hfound.
  rewrite (release_not_a_version _ _ Hver).
  destruct (known_release_truthy _ _ Hver) as [_ ->]. reflexivity.
Qed.

(** A version number that the table knows selects the message that
    names it. *)
Lemma known_version_message (s : state) (ver rel : string) :
  VER_TO_REL !! ver = Some rel ->
  found_matlab s = Some ver ->
  no_root_message s = incompatible_ver rel ver.
Proof.
  intros Hver Hfound. unfold no_root_message. rewrite Hfound, Hver.
  destruct (known_release_truthy _ _ Hver) as [-> _]. reflexivity.
Qed.

(** C1. The search path holds one directory, [/opt/old/bin/glnxa64], of
    an installation of R2021b: the directory has the ending and the
    [MATLAB] file, and [VersionInfo.xml] reports the release [R2021b],
    which the table knows as the version 9.11. The search records the
    release and fails, not with the message that names the version 9.11
    to install, but with the one for releases older than R2019a: the
    release name is looked up among the keys of the table, which are
    version numbers. *)
Theorem search_known_release_minimum_required :
  search_path_for_directory_unix (linux_with_path "/opt/old/bin/glnxa64")
    linux_state
  = (Raise (RuntimeError minimum_required),
     set_found_matlab (Some "R2021b") linux_state)
  /\ VER_TO_REL !! "9.11" = Some "R2021b"
  /\ VER_TO_REL !! "R2021b" = None
  /\ RuntimeError minimum_required
     <> RuntimeError (incompatible_ver "R2021b" "9.11").
Proof.
  split; [reflexivity |]. split; [reflexivity |]. split; [reflexivity |].
  discriminate.
Qed.

(** Whatever the host and the search path: when every directory is
    rejected and the release left in [found_matlab] is one that the
    table knows, the search fails with the message for releases older
    than R2019a. *)
Lemma search_known_release (h : host) (s : state) (path_string ver rel : string) :
  environ h !! path_name s = Some path_string ->
  Forall (fun path => cand_outcome h (arch s) path = Ok "")
    (Str.split (os_pathsep h) path_string) ->
  VER_TO_REL !! ver = Some rel ->
  found_matlab
    (scan_record h (arch s) (Str.split (os_pathsep h) path_string) s)
  = Some rel ->
  fst (search_path_for_directory_unix h s)
  = Raise (RuntimeError minimum_required).
Proof.
  intros Henv Hrej Hver Hfound.
  rewrite (search_all_rejected h s path_string Henv Hrej). simpl.
  now rewrite (known_release_message _ _ _ Hver Hfound).
Qed.

(** *** The release recorded during the scan *)

(** A loop that ends without a root and without an error has rejected
    every directory. *)
Lemma dir_loop_no_root (h : host) (a : string) (dirs : list string)
  (i j : nat) (s s' : state) :
  dir_loop h (endings_of h a) dirs i "" s = (Ok ("", j), s') ->
  Forall (fun path => cand_outcome h a path = Ok "") dirs
  /\ s' = scan_record h a dirs s.
Proof.
  revert i s. induction dirs as [|path dirs IH]; intros i s Hloop.
  - simpl in Hloop. injection Hloop as _ <-. split; [constructor | reflexivity].
  - rewrite dir_loop_step in Hloop.
    destruct (cand_outcome h a path) as [r|e] eqn:Hout; [| discriminate].
    destruct (Str.truthy r) eqn:Hr.
    + injection Hloop as -> _ _. discriminate.
    + apply truthy_false in Hr. subst r.
      destruct (IH _ _ Hloop) as [Hrej ->].
      split; [now constructor | reflexivity].
Qed.

Lemma fold_descriptor_none (h : host) (a : string) (dirs : list string)
  (found : option string) :
  Forall (fun path => descriptor_read h a path = None) dirs ->
  fold_left (fun found path => default found (descriptor_read h a path))
    dirs found = found.
Proof.
  intros Hnone. revert found.
  induction Hnone as [|path dirs Hpath _ IH]; intros found; [reflexivity |].
  simpl. now rewrite Hpath, IH.
Qed.

(** C10. [verify_matlab_release] leaves the state as it is when
    [VersionInfo.xml] is absent or has no child [release]. Each directory
    of the path, once examined, leaves in [found_matlab] the release text
    read there, or what the attribute held when none is read there,
    whether the directory wins, is rejected or raises. So after a scan
    that ends without a root, [found_matlab] is what it was when no
    directory had a release read, and otherwise the release text read at
    the last directory where one was read, be it followed by other
    rejected directories: the message of the failure is selected by that
    text. *)
Theorem found_matlab_last_release_read (h : host) (a : string)
  (dirs : list string) (i : nat) (s s' : state) :
  dir_loop h (endings_of h a) dirs 0 "" s = (Ok ("", i), s') ->
  (forall root s0,
     isfile (fs h) (os_path_join h root ["VersionInfo.xml"]) = false
     \/ (exists tree_root,
           xml_parse (fs h) (os_path_join h root ["VersionInfo.xml"])
           = Document tree_root
           /\ first_release tree_root = None) ->
     snd (verify_matlab_release h root s0) = s0)
  /\ (forall path s0,
        found_matlab (snd (ending_loop h path (endings_of h a) "" s0))
        = default (found_matlab s0) (descriptor_read h a path))
  /\ (Forall (fun path => descriptor_read h a path = None) dirs ->
      found_matlab s' = found_matlab s)
  /\ (forall pre path post t,
        dirs = (pre ++ path :: post)%list ->
        descriptor_read h a path = Some t ->
        Forall (fun later => descriptor_read h a later = None) post ->
        found_matlab s' = t
        /\ no_root_message s' = no_root_message (set_found_matlab t s)).
Proof.
  intros Hloop.
  destruct (dir_loop_no_root h a dirs 0 i s s' Hloop) as [_ ->].
  split; [| split; [| split]].
  - intros root s0 Hnone. rewrite verify_eq. simpl.
    unfold record_release, release_read.
    destruct Hnone as [-> | (tree_root & -> & ->)]; [reflexivity |].
    now destruct (isfile _ _).
  - intros path s0. rewrite ending_loop_eq, <- cand_record_found.
    unfold cand_record, has_ending. now destruct (existsb _ _).
  - intros Hnone. rewrite scan_record_found. now apply fold_descriptor_none.
  - intros pre path post t -> Hpath Hpost.
    assert (Hfound :
      found_matlab (scan_record h a (pre ++ path :: post) s) = t).
    { rewrite scan_record_found, fold_left_app. simpl.
      rewrite Hpath. simpl. now apply fold_descriptor_none. }
    split; [exact Hfound |].
    unfold no_root_message. rewrite Hfound.
    now destruct (scan_record_fields h a (pre ++ path :: post) s)
      as (-> & -> & _).
Qed.

Lemma found_matlab_last_release_read_witness :
  let h := linux_with_path
             "/opt/old/bin/glnxa64:/opt/e/bin/glnxa64:/opt/x/bin/glnxa64" in
  descriptor_read h "glnxa64" "/opt/old/bin/glnxa64" = Some (Some "R2021b")
  /\ found_matlab (snd (search_path_for_directory_unix h linux_state))
     = Some "R2021b".
Proof.
  intros h. split; [reflexivity |].
  pose proof (found_matlab_last_release_read h "glnxa64"
    ["/opt/old/bin/glnxa64"; "/opt/e/bin/glnxa64"; "/opt/x/bin/glnxa64"]
    3 linux_state (set_found_matlab (Some "R2021b") linux_state) eq_refl)
    as (_ & _ & _ & Hlast).
  destruct (Hlast [] "/opt/old/bin/glnxa64"
              ["/opt/e/bin/glnxa64"; "/opt/x/bin/glnxa64"] (Some "R2021b")
              eq_refl eq_refl) as [Hfound _].
  - repeat constructor.
  - exact Hfound.
Defined.

(** *** The search path that is not set, or empty *)

(** On Linux and macOS no ending is the empty string, so the empty
    directory name has none. *)
Lemma empty_path_no_ending (h : host) (a : string) :
  system h <> "Windows" -> has_ending h a "" = false.
Proof.
  intros Hposix. unfold has_ending, endings_of.
  rewrite (posix_join h Hposix), (posix_sep h Hposix).
  unfold posixpath.join. simpl. unfold posixpath.join_step.
  destruct (Str.startswith a posixpath.sep) eqn:Hstart.
  - apply startswith_iff in Hstart as [r ->]. reflexivity.
  - reflexivity.
Qed.

(** C7, as amended. When the variable of the search path is not in the
    environment, [_create_path_list] raises the error that tells to set
    it, and so does [search_path_for_directory_unix], whatever the file
    system holds. When the variable is set to the empty string,
    [_create_path_list] raises nothing and returns the list of one empty
    directory name; on Linux and macOS the search then fails with the
    same message, as long as no release was recorded before: the empty
    name has neither ending, and no file is looked at. *)
Theorem create_path_list_unset_or_empty (h : host) (s : state) :
  let message := set_path (path_name s) (arch s) (path_name s) in
  (environ h !! path_name s = None ->
   _create_path_list h s = (Raise (RuntimeError message), s)
   /\ forall f,
        search_path_for_directory_unix (with_fs f h) s
        = (Raise (RuntimeError message), s))
  /\ (environ h !! path_name s = Some "" ->
      _create_path_list h s = (Ok [""], s)
      /\ (system h <> "Windows" ->
          Str.truthy_opt (found_matlab s) = false ->
          forall f,
            search_path_for_directory_unix (with_fs f h) s
            = (Raise (RuntimeError message), s))).
Proof.
  intros message. split.
  - intros Henv. split; [now apply create_path_list_unset |].
    intros f. unfold search_path_for_directory_unix, bind.
    rewrite create_path_list_unset; [reflexivity | exact Henv].
  - intros Henv. split; [now rewrite (create_path_list_set h s "" Henv) |].
    intros Hposix Hfound f.
    assert (Hnone : cand_outcome (with_fs f h) (arch s) "" = Ok ""
                    /\ cand_record (with_fs f h) (arch s) "" s = s).
    { unfold cand_outcome, cand_record.
      now rewrite (empty_path_no_ending (with_fs f h) (arch s) Hposix). }
    destruct Hnone as [Hout Hrec].
    rewrite (search_all_rejected (with_fs f h) s "" Henv).
    + simpl. unfold scan_record. simpl. rewrite Hrec.
      unfold no_root_message.
      destruct (found_matlab s) as [found|]; [| reflexivity].
      simpl in Hfound. now rewrite Hfound.
    + simpl. now constructor.
Qed.

Lemma create_path_list_unset_or_empty_witness :
  _create_path_list (linux_host ∅ example_tree) linux_state
  = (Raise (RuntimeError
              (set_path "LD_LIBRARY_PATH" "glnxa64" "LD_LIBRARY_PATH")),
     linux_state)
  /\ search_path_for_directory_unix (linux_with_path "") linux_state
     = (Raise (RuntimeError
                 (set_path "LD_LIBRARY_PATH" "glnxa64" "LD_LIBRARY_PATH")),
        linux_state).
Proof.
  split.
  - apply (create_path_list_unset_or_empty (linux_host ∅ example_tree)
             linux_state).
    reflexivity.
  - apply (proj2 (proj2 (create_path_list_unset_or_empty
                           (linux_with_path "") linux_state) eq_refl)
             ltac:(discriminate) eq_refl example_tree).
Defined.

(** C7, as stated, fails: with the variable set to the empty string,
    [_create_path_list] raises nothing. *)
Lemma create_path_list_empty_counterexample :
  environ (linux_with_path "") !! path_name linux_state = Some ""
  /\ _create_path_list (linux_with_path "") linux_state
     = (Ok [""], linux_state).
Proof. split; reflexivity. Qed.

(** ** The Windows registry *)

(** Subkeys that do not start with the version are collected and passed
    over. *)
Lemma enum_loop_no_match (sub_keys found_vers : list string) :
  Forall (fun sub_key => Str.startswith sub_key MATLAB_VER = false) sub_keys ->
  enum_loop sub_keys found_vers = ("", (found_vers ++ sub_keys)%list).
Proof.
  intros Hnone. revert found_vers.
  induction Hnone as [|sub_key rest Hkey _ IH]; intros found_vers; simpl.
  - now rewrite app_nil_r.
  - rewrite Hkey, IH. now rewrite <- app_assoc.
Qed.

Lemma enum_loop_first_match (pre post found_vers : list string)
  (sub_key : string) :
  Forall (fun k => Str.startswith k MATLAB_VER = false) pre ->
  Str.startswith sub_key MATLAB_VER = true ->
  enum_loop (pre ++ sub_key :: post) found_vers
  = (sub_key, (found_vers ++ pre ++ [sub_key])%list).
Proof.
  intros Hpre Hkey. revert found_vers.
  induction Hpre as [|k pre Hk _ IH]; intros found_vers; simpl.
  - now rewrite Hkey.
  - rewrite Hk, IH. now rewrite <- app_assoc.
Qed.

Lemma startswith_truthy (s p : string) :
  Str.truthy p = true -> Str.startswith s p = true -> Str.truthy s = true.
Proof.
  intros Hp Hs. apply startswith_iff in Hs as [r ->].
  destruct p; [discriminate | reflexivity].
Qed.

(** C4. The subkey that [_find_matlab_key_from_windows_registry] returns
    is the first one, in the order of the enumeration, that starts with
    the version: the subkeys before it do not, and those after it are
    not looked at. [get_matlab_root_from_windows_reg] then returns the
    value [MATLABROOT] stored under that subkey. *)
Theorem find_matlab_key_first_prefix_match (h : host)
  (pre post : list string) (sub_key matlab_root : string) (s : state) :
  Forall (fun k => Str.startswith k MATLAB_VER = false) pre ->
  Str.startswith sub_key MATLAB_VER = true ->
  _find_matlab_key_from_windows_registry (pre ++ sub_key :: post) s
  = (Ok sub_key, s)
  /\ (matlab_key (reg h) = inr (pre ++ sub_key :: post)%list ->
      matlabroot_of (reg h) sub_key = inr matlab_root ->
      get_matlab_root_from_windows_reg h s = (Ok matlab_root, s)).
Proof.
  intros Hpre Hkey.
  assert (Hfind :
    _find_matlab_key_from_windows_registry (pre ++ sub_key :: post) s
    = (Ok sub_key, s)).
  { unfold _find_matlab_key_from_windows_registry.
    rewrite (enum_loop_first_match pre post [] sub_key Hpre Hkey).
    now rewrite (startswith_truthy sub_key MATLAB_VER eq_refl Hkey). }
  split; [exact Hfind |].
  intros Hreg Hroot. unfold get_matlab_root_from_windows_reg.
  rewrite Hreg. unfold bind. rewrite Hfind.
  unfold _get_root_from_version_key. now rewrite Hroot.
Qed.

(** The example of the specification: the subkeys 9.11.0 and 9.12.3, in
    this order, each with its [MATLABROOT]. *)
Lemma find_matlab_key_first_prefix_match_witness :
  let r := {| matlab_key := inr ["9.11.0"; "9.12.3"];
              matlabroot_of := fun k =>
                inr ("C:\Program Files\MATLAB\" ++ k) |} in
  _find_matlab_key_from_windows_registry ["9.11.0"; "9.12.3"] (initial ∅)
  = (Ok "9.12.3", initial ∅)
  /\ get_matlab_root_from_windows_reg (windows_host r) (initial ∅)
     = (Ok "C:\Program Files\MATLAB\9.12.3", initial ∅).
Proof.
  intros r.
  destruct (find_matlab_key_first_prefix_match (windows_host r)
              ["9.11.0"] [] "9.12.3" "C:\Program Files\MATLAB\9.12.3"
              (initial ∅)) as [Hfind Hroot].
  - repeat constructor.
  - reflexivity.
  - split; [exact Hfind | now apply Hroot].
Defined.

(** C5, as amended. When the key has subkeys and none starts with the
    version, [_find_matlab_key_from_windows_registry] raises the error
    whose message lists all the subkeys, separated by commas, and ends
    with the hint to install the package of the subkey enumerated last.
    When the key has no subkey, it raises the error that no installation
    was found. *)
Theorem find_matlab_key_no_match (sub_keys : list string) (s : state) :
  Forall (fun k => Str.startswith k MATLAB_VER = false) sub_keys ->
  _find_matlab_key_from_windows_registry sub_keys s
  = (Raise (RuntimeError
       (match sub_keys with
        | [] => no_matlab
        | _ :: _ =>
            no_compatible_matlab MATLAB_VER ++ " " ++ Str.join ", " sub_keys
            ++ ". " ++ install_compatible ++ List.last sub_keys "" ++ "."
        end)), s).
Proof.
  intros Hnone. unfold _find_matlab_key_from_windows_registry.
  rewrite (enum_loop_no_match sub_keys [] Hnone). simpl.
  now destruct sub_keys.
Qed.

Lemma find_matlab_key_no_match_witness :
  _find_matlab_key_from_windows_registry ["9.10.0"] (initial ∅)
  = (Raise (RuntimeError
       (no_compatible_matlab "9.12" ++ " 9.10.0. " ++ install_compatible
        ++ "9.10.0.")), initial ∅)
  /\ _find_matlab_key_from_windows_registry [] (initial ∅)
     = (Raise (RuntimeError no_matlab), initial ∅).
Proof.
  split.
  - apply (find_matlab_key_no_match ["9.10.0"]). repeat constructor.
  - apply (find_matlab_key_no_match []). constructor.
Defined.

(** C5, as stated, fails: with the subkeys 9.10, 9.11 and 9.9, in the
    order in which the registry sorts them, none starts with 9.12, and
    the hint names 9.9, the last one, which is older than 9.11: no
    message that names the newest version found is the one raised. *)
Lemma find_matlab_key_newest_counterexample :
  let sub_keys := ["9.10"; "9.11"; "9.9"] in
  Forall (fun k => Str.startswith k MATLAB_VER = false) sub_keys
  /\ fst (_find_matlab_key_from_windows_registry sub_keys (initial ∅))
     = Raise (RuntimeError
         (no_compatible_matlab MATLAB_VER ++ " 9.10, 9.11, 9.9. "
          ++ install_compatible ++ "9.9" ++ "."))
  /\ spec_older "9.9" "9.11" = true
  /\ forall v,
       spec_newest sub_keys v ->
       fst (_find_matlab_key_from_windows_registry sub_keys (initial ∅))
       <> Raise (RuntimeError
            (no_compatible_matlab MATLAB_VER ++ " "
             ++ Str.join ", " sub_keys ++ ". "
             ++ install_compatible ++ v ++ ".")).
Proof.
  intros sub_keys. split; [repeat constructor |].
  split; [reflexivity |]. split; [reflexivity |].
  intros v [Hin Hnewest].
  assert (Hv : v = "9.11").
  { destruct Hin as [<- | [<- | [<- | []]]]; [| reflexivity |].
    - apply Forall_cons in Hnewest as [_ Hnewest].
      apply Forall_cons in Hnewest as [Hlt _]. discriminate.
    - apply Forall_cons in Hnewest as [Hlt _]. discriminate. }
  subst v. discriminate.
Qed.

(** ** [write_text_file] *)

Lemma append_truthy_r (s t : string) :
  Str.truthy t = true -> Str.truthy (s ++ t) = true.
Proof. intros Ht. destruct s; [exact Ht | reflexivity]. Qed.

(** The last character of a string that ends with a non-empty one. *)
Lemma endswith_append (s t : string) (c : ascii) :
  Str.truthy t = true ->
  Str.endswith (s ++ t) (String c "") = Str.endswith t (String c "").
Proof.
  intros Ht. induction s as [|b s IH]; [reflexivity |].
  change (String b s ++ t) with (String b (s ++ t)).
  rewrite endswith_unfold.
  assert (Hne : String.eqb (String b (s ++ t)) (String c "") = false).
  { apply String.eqb_neq. intros Heq. injection Heq as _ Heq.
    pose proof (append_truthy_r s t Ht) as Hst.
    rewrite Heq in Hst. discriminate. }
  now rewrite Hne.
Qed.

Lemma join_step_plain (path b : string) :
  Str.truthy path = true -> Str.endswith path "/" = false ->
  plain b = true ->
  posixpath.join_step path b = path ++ "/" ++ b
  /\ Str.truthy (path ++ "/" ++ b) = true
  /\ Str.endswith (path ++ "/" ++ b) "/" = false.
Proof.
  intros Hpath Hend Hb. unfold plain in Hb.
  apply andb_prop in Hb as [Hb Hbend]. apply andb_prop in Hb as [Hb Hbstart].
  apply negb_true_iff in Hbend, Hbstart.
  split; [| split].
  - unfold posixpath.join_step, posixpath.sep.
    now rewrite Hbstart, Hpath, Hend.
  - now apply append_truthy_r.
  - rewrite endswith_append; [| reflexivity].
    change ("/" ++ b) with (String "/" b). rewrite endswith_unfold.
    assert (Hne : String.eqb (String "/" b) "/" = false).
    { apply String.eqb_neq. intros Heq. injection Heq as ->. discriminate. }
    now rewrite Hne.
Qed.

(** Joining plain names to a path without a trailing separator puts one
    separator before each. *)
Lemma join_plain (path : string) (comps : list string) :
  Str.truthy path = true -> Str.endswith path "/" = false ->
  forallb plain comps = true ->
  posixpath.join path comps
  = fold_left (fun p b => p ++ "/" ++ b) comps path.
Proof.
  revert path. induction comps as [|b comps IH]; intros path Hpath Hend Hall;
    [reflexivity |].
  simpl in Hall. apply andb_prop in Hall as [Hb Hall].
  destruct (join_step_plain path b Hpath Hend Hb) as (Hstep & Ht & He).
  unfold posixpath.join in *. simpl. rewrite Hstep. now apply IH.
Qed.

Lemma has_char_append (c : ascii) (s t : string) :
  Str.has_char c (s ++ t) = Str.has_char c s || Str.has_char c t.
Proof.
  induction s as [|a s IH]; [reflexivity |].
  simpl. now rewrite IH, orb_assoc.
Qed.

Lemma join_has_char (c : ascii) (path : string) (comps : list string) :
  Ascii.eqb "/" c = false ->
  Str.has_char c path = false ->
  forallb (fun b => negb (Str.has_char c b)) comps = true ->
  Str.has_char c (posixpath.join path comps) = false.
Proof.
  intros Hc. revert path.
  induction comps as [|b comps IH]; intros path Hpath Hall; [exact Hpath |].
  simpl in Hall. apply andb_prop in Hall as [Hb Hall].
  apply negb_true_iff in Hb.
  unfold posixpath.join in *. simpl. apply IH; [| exact Hall].
  unfold posixpath.join_step, posixpath.sep.
  destruct (Str.startswith b "/"); [exact Hb |].
  assert (Hsep : Str.has_char c "/" = false).
  { cbn [Str.has_char]. now rewrite Hc. }
  destruct (negb (Str.truthy path) || Str.endswith path "/");
    now rewrite !has_char_append, ?Hpath, ?Hb, ?Hsep.
Qed.

(** Splitting at a character that the first part does not have. *)
Lemma split_append (c : ascii) (s t : string) :
  Str.has_char c s = false ->
  Str.split c (s ++ String c t) = s :: Str.split c t.
Proof.
  induction s as [|a s IH]; simpl; intros Hs.
  - now rewrite Ascii.eqb_refl.
  - apply orb_false_elim in Hs as [Ha Hs]. now rewrite Ha, (IH Hs).
Qed.

Lemma split_none (c : ascii) (s : string) :
  Str.has_char c s = false -> Str.split c s = [s].
Proof.
  induction s as [|a s IH]; simpl; intros Hs; [reflexivity |].
  apply orb_false_elim in Hs as [Ha Hs]. now rewrite Ha, (IH Hs).
Qed.

(** The steps of [write_text_file] when the file can be written. *)
Lemma write_text_file_ok (h : host) (matlab_root : string) (s : state) :
  writable (fs h) (file_location h) ->
  write_text_file h matlab_root s
  = (Ok tt,
     set_files
       (<[file_location h :=
            arch s ++ nl ++ os_path_join h matlab_root ["bin"; arch s] ++ nl
            ++ os_path_join h matlab_root
                 ["extern"; "engines"; "python"; "dist"; "matlab"; "engine";
                  arch s] ++ nl
            ++ os_path_join h matlab_root ["extern"; "bin"; arch s]]>
          (files s)) s).
Proof.
  intros (Hopen & Hwrite & Hclose).
  unfold write_text_file, bind, get, open_w, file_write, file_close.
  rewrite Hopen. simpl.
  repeat (rewrite ?lookup_insert_eq, ?Hwrite, ?Hclose; simpl).
  rewrite !insert_insert_eq. now rewrite ?append_assoc.
Qed.

Lemma write_text_file_open_fails (h : host) (matlab_root : string) (s : state)
  (e : exn) :
  fopen_w (fs h) (file_location h) = Some e ->
  write_text_file h matlab_root s = (Raise e, s).
Proof.
  intros Hopen. unfold write_text_file, bind, get, open_w. now rewrite Hopen.
Qed.

(** [write_text_file] changes nothing but the file at [file_location],
    whatever its outcome. *)
Lemma write_text_file_frame (h : host) (matlab_root : string) (s s' : state)
  (r : result unit) :
  write_text_file h matlab_root s = (r, s') ->
  arch s' = arch s /\ path_name s' = path_name s
  /\ python_ver s' = python_ver s /\ platform s' = platform s
  /\ found_matlab s' = found_matlab s
  /\ forall other, other <> file_location h ->
                   files s' !! other = files s !! other.
Proof.
  unfold write_text_file, bind, get, open_w, file_write, file_close.
  destruct (fopen_w (fs h) (file_location h)) as [e|];
    [intros [= <- <-]; repeat split |].
  simpl.
  repeat match goal with
         | |- context [fwrite ?f ?p ?w ?d] =>
             destruct (fwrite f p w d) as [[? ?]|]; simpl
         | |- context [fclose ?f ?p ?w] =>
             destruct (fclose f p w) as [[? ?]|]; simpl
         end;
    intros [= <- <-]; simpl; repeat split;
    intros other Hother; now rewrite ?lookup_insert_ne by congruence.
Qed.

(** When [write_text_file] returns, the file holds the four lines. *)
Lemma write_text_file_returns (h : host) (matlab_root : string) (s s' : state) :
  write_text_file h matlab_root s = (Ok tt, s') ->
  files s' !! file_location h
  = Some (arch s ++ nl ++ os_path_join h matlab_root ["bin"; arch s] ++ nl
          ++ os_path_join h matlab_root
               ["extern"; "engines"; "python"; "dist"; "matlab"; "engine";
                arch s] ++ nl
          ++ os_path_join h matlab_root ["extern"; "bin"; arch s]).
Proof.
  unfold write_text_file, bind, get, open_w, file_write, file_close.
  destruct (fopen_w (fs h) (file_location h)) as [e|]; [discriminate |].
  simpl.
  repeat match goal with
         | |- context [fwrite ?f ?p ?w ?d] =>
             destruct (fwrite f p w d) as [[? ?]|]; simpl; [discriminate |]
         | |- context [fclose ?f ?p ?w] =>
             destruct (fclose f p w) as [[? ?]|]; simpl; [discriminate |]
         end.
  intros [= <-]. simpl.
  repeat (rewrite lookup_insert_eq; simpl).
  now rewrite ?append_assoc.
Qed.

(** C3. When the file at the fixed location can be opened, written and
    closed, [write_text_file] replaces whatever it held by four strings
    joined by newlines, with nothing after the fourth: the architecture
    tag, and the root joined with [bin/<arch>], with
    [extern/engines/python/dist/matlab/engine/<arch>] and with
    [extern/bin/<arch>]. Whenever the method returns, the file holds that
    text, and no other file has changed. When the file cannot be opened,
    the method raises the error of the [open] and the files are as they
    were. On Linux and macOS, for a root without a trailing separator,
    the three paths are the root followed by [/bin/<arch>] and so on; and
    for a root without a newline the text splits into exactly these four
    lines. *)
Theorem write_text_file_four_lines (h : host) (matlab_root : string)
  (s : state) :
  let a := arch s in
  let bin_arch := os_path_join h matlab_root ["bin"; a] in
  let engine_arch :=
    os_path_join h matlab_root
      ["extern"; "engines"; "python"; "dist"; "matlab"; "engine"; a] in
  let extern_bin := os_path_join h matlab_root ["extern"; "bin"; a] in
  let content :=
    a ++ nl ++ bin_arch ++ nl ++ engine_arch ++ nl ++ extern_bin in
  (writable (fs h) (file_location h) ->
   write_text_file h matlab_root s
   = (Ok tt, set_files (<[file_location h := content]> (files s)) s))
  /\ (forall s', write_text_file h matlab_root s = (Ok tt, s') ->
      files s' !! file_location h = Some content
      /\ forall other, other <> file_location h ->
                       files s' !! other = files s !! other)
  /\ (forall e, fopen_w (fs h) (file_location h) = Some e ->
      write_text_file h matlab_root s = (Raise e, s))
  /\ (system h <> "Windows" -> In a arch_tags ->
      Str.truthy matlab_root = true -> Str.endswith matlab_root "/" = false ->
      bin_arch = matlab_root ++ "/bin/" ++ a
      /\ engine_arch
         = matlab_root ++ "/extern/engines/python/dist/matlab/engine/" ++ a
      /\ extern_bin = matlab_root ++ "/extern/bin/" ++ a)
  /\ (system h <> "Windows" -> In a arch_tags ->
      Str.has_char (ascii_of_nat 10) matlab_root = false ->
      Str.split (ascii_of_nat 10) content
      = [a; bin_arch; engine_arch; extern_bin]).
Proof.
  intros a bin_arch engine_arch extern_bin content.
  split; [| split; [| split; [| split]]].
  - intros Hwritable. exact (write_text_file_ok h matlab_root s Hwritable).
  - intros s' Hs'. split.
    + exact (write_text_file_returns h matlab_root s s' Hs').
    + now apply (write_text_file_frame h matlab_root s s' (Ok tt) Hs').
  - intros e. apply write_text_file_open_fails.
  - intros Hposix Ha Hroot Hend.
    subst bin_arch engine_arch extern_bin. rewrite (posix_join h Hposix).
    assert (Hplain : plain a = true).
    { destruct Ha as [<- | [<- | [<- | [<- | []]]]]; reflexivity. }
    rewrite !join_plain; simpl; rewrite ?Hplain; try easy.
    now rewrite !append_assoc.
  - intros Hposix Ha Hroot. subst content.
    assert (Hnl : Str.has_char (ascii_of_nat 10) a = false).
    { destruct Ha as [<- | [<- | [<- | [<- | []]]]]; reflexivity. }
    assert (Hjoin : forall comps,
      forallb (fun b => negb (Str.has_char (ascii_of_nat 10) b)) comps = true ->
      Str.has_char (ascii_of_nat 10) (os_path_join h matlab_root comps)
      = false).
    { intros comps Hcomps. rewrite (posix_join h Hposix).
      now apply join_has_char. }
    assert (Hcons : forall t, nl ++ t = String (ascii_of_nat 10) t)
      by reflexivity.
    rewrite !Hcons.
    rewrite (split_append _ a), (split_append _ bin_arch),
      (split_append _ engine_arch), (split_none _ extern_bin);
      try reflexivity; try exact Hnl;
      subst bin_arch engine_arch extern_bin; apply Hjoin; simpl;
      now rewrite Hnl.
Qed.

Lemma write_text_file_four_lines_witness :
  let h := linux_with_path "" in
  let root := "/usr/local/MATLAB/R2022a" in
  let s' := snd (write_text_file h root linux_state) in
  fst (write_text_file h root linux_state) = Ok tt
  /\ files s' !! "/home/user/matlabengine/src/matlab/engine/_arch.txt"
     = Some ("glnxa64" ++ nl ++ "/usr/local/MATLAB/R2022a/bin/glnxa64" ++ nl
             ++ "/usr/local/MATLAB/R2022a/extern/engines/python/dist/matlab/engine/glnxa64"
             ++ nl ++ "/usr/local/MATLAB/R2022a/extern/bin/glnxa64")
  /\ os_path_join h root ["bin"; "glnxa64"] = root ++ "/bin/" ++ "glnxa64"
  /\ Str.split (ascii_of_nat 10)
       ("glnxa64" ++ nl ++ "/usr/local/MATLAB/R2022a/bin/glnxa64" ++ nl
        ++ "/usr/local/MATLAB/R2022a/extern/engines/python/dist/matlab/engine/glnxa64"
        ++ nl ++ "/usr/local/MATLAB/R2022a/extern/bin/glnxa64")
     = ["glnxa64";
        "/usr/local/MATLAB/R2022a/bin/glnxa64";
        "/usr/local/MATLAB/R2022a/extern/engines/python/dist/matlab/engine/glnxa64";
        "/usr/local/MATLAB/R2022a/extern/bin/glnxa64"]
  /\ write_text_file (linux_host ∅ tree_without_checkout) root linux_state
     = (Raise (PyError "FileNotFoundError"
                 "[Errno 2] No such file or directory"), linux_state).
Proof.
  intros h root s'.
  destruct (write_text_file_four_lines h root linux_state)
    as (Hwrite & Hfile & _ & Hshape & Hlines).
  assert (Hwritable : writable (fs h) (file_location h)).
  { split; [reflexivity | split; intros; reflexivity]. }
  split; [| split; [| split; [| split]]].
  - now rewrite (Hwrite Hwritable).
  - apply (Hfile s'). subst s'. now rewrite (Hwrite Hwritable).
  - apply Hshape; [discriminate | right; left; reflexivity | reflexivity
                   | reflexivity].
  - exact (Hlines ltac:(discriminate) (or_intror (or_introl eq_refl))
             eq_refl).
  - apply (write_text_file_four_lines (linux_host ∅ tree_without_checkout)
             root linux_state).
    reflexivity.
Defined.

(** ** [run] *)

Lemma bind_raise {A B : Type} (c : M A) (k : A -> M B) (s s' : state)
  (e : exn) :
  c s = (Raise e, s') -> bind c k s = (Raise e, s').
Proof. intros Hc. unfold bind. now rewrite Hc. Qed.

Lemma bind_ok {A B : Type} (c : M A) (k : A -> M B) (s s' : state) (a : A) :
  c s = (Ok a, s') -> bind c k s = k a s'.
Proof. intros Hc. unfold bind. now rewrite Hc. Qed.

Section Run.

Variable h : host.

(** The steps before [write_text_file] write no file. *)
Lemma set_platform_and_arch_files (s : state) :
  files (snd (set_platform_and_arch h s)) = files s.
Proof.
  unfold set_platform_and_arch, bind, modify, get, raise. simpl.
  destruct (PLATFORM_DICT !! system h); [| reflexivity]. simpl.
  destruct (String.eqb (system h) "Windows"); [reflexivity |].
  destruct (String.eqb (system h) "Linux"); [reflexivity |].
  destruct (String.eqb (system h) "Darwin"); [| reflexivity].
  now destruct (String.eqb (mac_ver_machine h) "arm64").
Qed.

Lemma set_python_version_files (s : state) :
  files (snd (set_python_version h s)) = files s.
Proof.
  unfold set_python_version, bind, modify, get, raise, ret. simpl.
  now case_bool_decide.
Qed.

Lemma windows_reg_state (s : state) :
  snd (get_matlab_root_from_windows_reg h s) = s.
Proof.
  unfold get_matlab_root_from_windows_reg, bind, raise.
  destruct (matlab_key (reg h)) as [err|key]; [reflexivity |].
  unfold _find_matlab_key_from_windows_registry.
  destruct (enum_loop key []) as [key_value found_vers].
  destruct (negb (Str.truthy key_value)).
  - now destruct found_vers.
  - unfold ret, _get_root_from_version_key.
    now destruct (matlabroot_of (reg h) key_value).
Qed.

Lemma unix_default_install_exists_ok (s s' : state) (b : bool) :
  unix_default_install_exists h s = (Ok b, s') ->
  s' = s
  /\ exists path, DEFAULT_INSTALLS !! platform s = Some path
                  /\ b = exists_ (fs h) path.
Proof.
  unfold unix_default_install_exists, bind, get, raise, ret.
  destruct (DEFAULT_INSTALLS !! platform s) as [path|]; [| discriminate].
  intros [= <- <-]. eauto.
Qed.

Lemma unix_default_install_exists_state (s : state) :
  snd (unix_default_install_exists h s) = s.
Proof.
  unfold unix_default_install_exists, bind, get, raise, ret.
  now destruct (DEFAULT_INSTALLS !! platform s).
Qed.

(** The state at the exit of the loop is the record of the directories
    examined. *)
Lemma dir_loop_state (a : string) (dirs : list string) (i : nat) (s : state) :
  exists n,
    snd (dir_loop h (endings_of h a) dirs i "" s)
    = scan_record h a (firstn n dirs) s.
Proof.
  revert i s. induction dirs as [|path dirs IH]; intros i s.
  - now exists 0.
  - rewrite dir_loop_step.
    destruct (cand_outcome h a path) as [r|e]; [destruct (Str.truthy r) |].
    + now exists 1.
    + destruct (IH (S i) (cand_record h a path s)) as [n Hn].
      exists (S n). exact Hn.
    + now exists 1.
Qed.

Lemma search_files (s : state) :
  files (snd (search_path_for_directory_unix h s)) = files s.
Proof.
  destruct (environ h !! path_name s) as [path_string|] eqn:Henv.
  - rewrite (search_eq h s path_string Henv).
    destruct (dir_loop_state (arch s)
                (Str.split (os_pathsep h) path_string) 0 s) as [n Hn].
    destruct (dir_loop _ _ _ _ _ _) as [[found|e] s']; simpl in Hn; subst s'.
    + destruct (negb (Str.truthy (fst found))); simpl;
        [| destruct (negb (isdir _ _)); simpl];
        apply scan_record_fields.
    + simpl. apply scan_record_fields.
  - unfold search_path_for_directory_unix, bind.
    now rewrite (create_path_list_unset h s Henv).
Qed.

(** [run] when the steps before [write_text_file] succeed: what is left
    of it is the write and the call of the base class. *)
Lemma run_discovered (s : state) (root : string) (s' : state) :
  discovered h s root s' ->
  run h s = (write_text_file h root ;; lift (build_py_run h)) s'.
Proof.
  intros (s1 & s2 & Hplat & Hver & Hroot). unfold run.
  rewrite (bind_ok _ _ _ _ _ Hplat), (bind_ok _ _ _ _ _ Hver).
  unfold bind at 1. unfold get at 1.
  destruct Hroot as [[Hwin Hreg] | [(Hunix & Hdef & Hpath)
                                   | (Hunix & s3 & Hdef & Hsearch)]].
  - rewrite Hwin. simpl. now rewrite (bind_ok _ _ _ _ _ Hreg).
  - apply String.eqb_neq in Hunix. rewrite Hunix.
    erewrite bind_ok; [reflexivity |].
    unfold bind. now rewrite Hdef, Hpath.
  - apply String.eqb_neq in Hunix. rewrite Hunix.
    erewrite bind_ok; [reflexivity |].
    unfold bind. now rewrite Hdef, Hsearch.
Qed.

(** [run] when a step before [write_text_file] raises. *)
Lemma run_discovery_fails (s : state) (e : exn) (s' : state) :
  discovery_fails h s e s' ->
  run h s = (Raise e, s') /\ files s' = files s.
Proof.
  intros [Hplat | [(s1 & Hplat & Hver)
                  | [(s1 & s2 & Hplat & Hver & Hwin & Hreg)
                    | (s1 & s2 & s3 & Hplat & Hver & Hunix & Hdef & Hsearch)]]].
  - split; [now apply bind_raise |].
    pose proof (set_platform_and_arch_files s) as Hf. now rewrite Hplat in Hf.
  - split.
    + unfold run. rewrite (bind_ok _ _ _ _ _ Hplat). now apply bind_raise.
    + pose proof (set_platform_and_arch_files s) as Hf1.
      pose proof (set_python_version_files s1) as Hf2.
      rewrite Hplat in Hf1. rewrite Hver in Hf2. simpl in *. congruence.
  - pose proof (set_platform_and_arch_files s) as Hf1.
    pose proof (set_python_version_files s1) as Hf2.
    pose proof (windows_reg_state s2) as Hf3.
    rewrite Hplat in Hf1. rewrite Hver in Hf2. rewrite Hreg in Hf3.
    simpl in *. subst s'. split; [| congruence].
    unfold run.
    rewrite (bind_ok _ _ _ _ _ Hplat), (bind_ok _ _ _ _ _ Hver).
    unfold bind at 1. unfold get at 1. rewrite Hwin. simpl.
    now apply bind_raise.
  - pose proof (set_platform_and_arch_files s) as Hf1.
    pose proof (set_python_version_files s1) as Hf2.
    pose proof (unix_default_install_exists_state s2) as Hf3.
    pose proof (search_files s3) as Hf4.
    rewrite Hplat in Hf1. rewrite Hver in Hf2. rewrite Hdef in Hf3.
    rewrite Hsearch in Hf4. simpl in *. subst s3. split; [| congruence].
    unfold run.
    rewrite (bind_ok _ _ _ _ _ Hplat), (bind_ok _ _ _ _ _ Hver).
    unfold bind at 1. unfold get at 1.
    apply String.eqb_neq in Hunix. rewrite Hunix.
    apply bind_raise. rewrite (bind_ok _ _ _ _ _ Hdef). exact Hsearch.
Qed.

(** Every run either finds a root, or fails at a step before
    [write_text_file]. *)
Lemma discovered_or_fails (s : state) :
  (exists root s', discovered h s root s')
  \/ (exists e s', discovery_fails h s e s').
Proof.
  unfold discovered, discovery_fails.
  destruct (set_platform_and_arch h s) as [[[]|e1] s1] eqn:Hplat;
    [| right; eauto].
  destruct (set_python_version h s1) as [[[]|e2] s2] eqn:Hver;
    [| right; exists e2, s2; right; left; eauto].
  destruct (String.eqb_spec (platform s2) "Windows") as [Hwin | Hunix].
  - destruct (get_matlab_root_from_windows_reg h s2) as [[root|e3] s3] eqn:Hreg.
    + left. exists root, s3, s1, s2. auto.
    + right. exists e3, s3. right. right. left. exists s1, s2. auto.
  - destruct (unix_default_install_exists h s2) as [[[|]|e3] s3] eqn:Hdef.
    + destruct (unix_default_install_exists_ok _ _ _ Hdef)
        as (-> & path & Hpath & _).
      left. exists path, s2, s1, s2. auto 10.
    + destruct (search_path_for_directory_unix h s3) as [[root|e4] s4]
        eqn:Hsearch.
      * left. exists root, s4, s1, s2. do 2 (split; [auto |]).
        right. right. eauto.
      * right. exists e4, s4. do 3 right. exists s1, s2, s3. auto.
    + (* the platform is one of the table of default installations *)
      exfalso. revert Hdef.
      unfold unix_default_install_exists, bind, get, raise, ret.
      destruct (DEFAULT_INSTALLS !! platform s2) eqn:Hpath; [discriminate |].
      intros _.
      revert Hplat Hver Hunix Hpath. clear.
      unfold set_platform_and_arch, set_python_version, bind, modify, get,
        raise, ret. simpl.
      destruct (PLATFORM_DICT !! system h); [| discriminate]. simpl.
      destruct (String.eqb_spec (system h) "Windows") as [Hw|Hw].
      { intros [= <-]. case_bool_decide; [| discriminate].
        intros [= <-]. simpl. congruence. }
      destruct (String.eqb_spec (system h) "Linux") as [Hl|Hl].
      { intros [= <-]. case_bool_decide; [| discriminate].
        intros [= <-]. simpl. rewrite Hl. discriminate. }
      destruct (String.eqb_spec (system h) "Darwin") as [Hd|Hd];
        [| discriminate].
      destruct (String.eqb (mac_ver_machine h) "arm64");
        intros [= <-]; (case_bool_decide; [| discriminate]);
        intros [= <-]; simpl; rewrite Hd; discriminate.
Qed.

End Run.

Lemma discovered_files (h : host) (s : state) (root : string) (s' : state) :
  discovered h s root s' -> files s' = files s.
Proof.
  intros (s1 & s2 & Hplat & Hver & Hroot).
  pose proof (set_platform_and_arch_files h s) as Hf1.
  pose proof (set_python_version_files h s1) as Hf2.
  rewrite Hplat in Hf1. rewrite Hver in Hf2. simpl in *.
  destruct Hroot as [[_ Hreg] | [(_ & Hdef & _) | (_ & s3 & Hdef & Hsearch)]].
  - pose proof (windows_reg_state h s2) as Hf3. rewrite Hreg in Hf3.
    simpl in Hf3. congruence.
  - pose proof (unix_default_install_exists_state h s2) as Hf3.
    rewrite Hdef in Hf3. simpl in Hf3. congruence.
  - pose proof (unix_default_install_exists_state h s2) as Hf3.
    pose proof (search_files h s3) as Hf4.
    rewrite Hdef in Hf3. rewrite Hsearch in Hf4. simpl in *. congruence.
Qed.

(** C8. When a step of [run] before [write_text_file] raises (the
    platform, the version of Python, the registry, or the search of the
    path), [run] ends with that error and has written no file. Every run
    is one of two kinds: such a failure, with the files as they were; or
    a run where every step before [write_text_file] succeeded with a
    root, the files being still as they were, and what is left of the run
    is the write for that root and the call of the base class. So the
    files differ at the end of a run only when a root was found. *)
Theorem run_aborts_before_write (h : host) (s : state) :
  (forall e s',
     discovery_fails h s e s' ->
     run h s = (Raise e, s') /\ files s' = files s)
  /\ (forall r s',
        run h s = (r, s') ->
        (exists e, r = Raise e /\ discovery_fails h s e s'
                   /\ files s' = files s)
        \/ (exists root s2,
              discovered h s root s2
              /\ files s2 = files s
              /\ (write_text_file h root ;; lift (build_py_run h)) s2
                 = (r, s')))
  /\ (forall r s',
        run h s = (r, s') -> files s' <> files s ->
        exists root s2, discovered h s root s2).
Proof.
  assert (Hkinds : forall r s',
    run h s = (r, s') ->
    (exists e, r = Raise e /\ discovery_fails h s e s' /\ files s' = files s)
    \/ (exists root s2,
          discovered h s root s2
          /\ files s2 = files s
          /\ (write_text_file h root ;; lift (build_py_run h)) s2 = (r, s'))).
  { intros r s' Hrun.
    destruct (discovered_or_fails h s)
      as [(root & s2 & Hok) | (e & s2 & Hfail)].
    - right. exists root, s2. split; [exact Hok |].
      split; [exact (discovered_files h s root s2 Hok) |].
      now rewrite <- (run_discovered h s root s2 Hok).
    - left. destruct (run_discovery_fails h s e s2 Hfail) as [Hraise Hfiles].
      rewrite Hraise in Hrun. injection Hrun as <- <-. eauto. }
  split; [intros e s'; apply run_discovery_fails |].
  split; [exact Hkinds |].
  intros r s' Hrun Hfiles.
  destruct (Hkinds r s' Hrun) as [(e & _ & _ & Hsame) | (root & s2 & Hok & _)];
    [contradiction | eauto].
Qed.

Lemma run_aborts_before_write_witness :
  run freebsd_host (initial ∅)
  = (Raise (RuntimeError "FreeBSD is not a supported platform."),
     set_platform "FreeBSD" (initial ∅))
  /\ files (snd (run freebsd_host (initial ∅))) = ∅.
Proof.
  destruct (proj1 (run_aborts_before_write freebsd_host (initial ∅))
              (RuntimeError "FreeBSD is not a supported platform.")
              (set_platform "FreeBSD" (initial ∅)))
    as [Hrun Hfiles].
  - left. reflexivity.
  - split; [exact Hrun |]. rewrite Hrun. exact Hfiles.
Defined.

(** C9. On a host whose system has a default location in
    [DEFAULT_INSTALLS] (Linux and macOS) and whose Python is supported,
    when [os.path.exists] holds of that location, [run] takes it as the
    root, whatever else the file system [f] says: nothing is asked of
    [isfile], [isdir] or the XML parser, and [found_matlab] is not
    assigned. What is left of the run is the write for that root and the
    call of the base class; when the file can be written, it holds the
    architecture tag and the default location followed by [/bin/<arch>],
    by [/extern/engines/python/dist/matlab/engine/<arch>] and by
    [/extern/bin/<arch>], one on each line. *)
Theorem run_default_install_accepted (h : host) (f : filesystem) (s : state)
  (path : string) :
  DEFAULT_INSTALLS !! system h = Some path ->
  Str.of_N (fst (version_info h)) ++ "." ++ Str.of_N (snd (version_info h))
    ∈ SUPPORTED_PYTHON_VERSIONS ->
  exists_ f path = true ->
  exists s2 a,
    discovered (with_fs f h) s path s2
    /\ arch s2 = a /\ In a arch_tags
    /\ found_matlab s2 = found_matlab s /\ files s2 = files s
    /\ platform s2 = system h /\ platform s2 <> "Windows"
    /\ run (with_fs f h) s
       = (write_text_file (with_fs f h) path ;; lift (build_py_run h)) s2
    /\ (writable f (file_location h) ->
        run (with_fs f h) s
        = (build_py_run h,
           set_files
             (<[file_location h :=
                  a ++ nl ++ (path ++ "/bin/" ++ a) ++ nl
                  ++ (path ++ "/extern/engines/python/dist/matlab/engine/"
                      ++ a) ++ nl
                  ++ (path ++ "/extern/bin/" ++ a)]> (files s)) s2)).
Proof.
  intros Hpath Hpython Hexists.
  assert (Hsys : (system h = "Darwin"
                  /\ path = "/Applications/MATLAB_R2022a.app")
                 \/ (system h = "Linux" /\ path = "/usr/local/MATLAB/R2022a")).
  { unfold DEFAULT_INSTALLS in Hpath.
    apply lookup_insert_Some in Hpath as [[<- <-] | [_ Hpath]];
      [now left |].
    apply lookup_singleton_Some in Hpath as [<- <-]. now right. }
  assert (Hposix : system (with_fs f h) <> "Windows").
  { simpl. destruct Hsys as [[-> _] | [-> _]]; discriminate. }
  assert (Hplat : exists a name,
    In a arch_tags
    /\ set_platform_and_arch (with_fs f h) s
       = (Ok tt, set_arch a (set_path_name name (set_platform (system h) s)))).
  { unfold set_platform_and_arch, bind, modify, get, raise. simpl.
    destruct Hsys as [[-> _] | [-> _]]; simpl.
    - destruct (String.eqb (mac_ver_machine h) "arm64");
        eexists; eexists; (split; [| reflexivity]); simpl; auto.
    - eexists; eexists; (split; [| reflexivity]); simpl; auto. }
  destruct Hplat as (a & name & Ha & Hplat).
  set (s1 := set_arch a (set_path_name name (set_platform (system h) s))) in *.
  set (s2 := set_python_ver
               (Str.of_N (fst (version_info h)) ++ "."
                ++ Str.of_N (snd (version_info h))) s1).
  assert (Hver : set_python_version (with_fs f h) s1 = (Ok tt, s2)).
  { unfold set_python_version, bind, modify, get, raise, ret. simpl.
    now rewrite (bool_decide_eq_true_2 _ Hpython). }
  assert (Hunix : platform s2 <> "Windows") by exact Hposix.
  assert (Hfound : discovered (with_fs f h) s path s2).
  { exists s1, s2. do 2 (split; [assumption |]). right. left.
    split; [exact Hunix |]. split; [| exact Hpath].
    unfold unix_default_install_exists, bind, get, ret. simpl.
    now rewrite Hpath, Hexists. }
  exists s2, a.
  split; [exact Hfound |]. do 6 (split; [easy |]).
  split; [exact (run_discovered _ _ _ _ Hfound) |].
  intros Hwritable.
  rewrite (run_discovered _ _ _ _ Hfound). unfold bind at 1.
  rewrite (write_text_file_ok (with_fs f h) path s2 Hwritable).
  assert (Hplain : plain a = true).
  { destruct Ha as [<- | [<- | [<- | [<- | []]]]]; reflexivity. }
  assert (Hroot : Str.truthy path = true /\ Str.endswith path "/" = false).
  { destruct Hsys as [[_ ->] | [_ ->]]; split; reflexivity. }
  destruct Hroot as [Htruthy Hend].
  rewrite (posix_join (with_fs f h) Hposix).
  rewrite !join_plain; simpl; rewrite ?Hplain; try easy.
  unfold lift. now rewrite ?append_assoc.
Qed.

Lemma run_default_install_accepted_witness :
  exists s',
    run (linux_host ∅ only_default_exists) (initial ∅) = (Ok tt, s')
    /\ files s' !! "/home/user/matlabengine/src/matlab/engine/_arch.txt"
       = Some ("glnxa64" ++ nl ++ "/usr/local/MATLAB/R2022a/bin/glnxa64" ++ nl
               ++ "/usr/local/MATLAB/R2022a/extern/engines/python/dist/matlab/engine/glnxa64"
               ++ nl ++ "/usr/local/MATLAB/R2022a/extern/bin/glnxa64")
    /\ found_matlab s' = Some ""
    /\ isdir only_default_exists "/usr/local/MATLAB/R2022a" = false
    /\ isfile only_default_exists "/usr/local/MATLAB/R2022a/VersionInfo.xml"
       = false
    /\ isfile only_default_exists
         "/usr/local/MATLAB/R2022a/bin/glnxa64/MATLAB" = false.
Proof.
  destruct (run_default_install_accepted (linux_host ∅ only_default_exists)
              only_default_exists (initial ∅) "/usr/local/MATLAB/R2022a")
    as (s2 & a & _ & Harch & _ & Hfound & _ & _ & _ & _ & Hrun).
  - reflexivity.
  - vm_compute. set_solver.
  - reflexivity.
  - assert (Hwritable :
      writable only_default_exists
        (file_location (linux_host ∅ only_default_exists))).
    { split; [reflexivity | split; intros; reflexivity]. }
    specialize (Hrun Hwritable).
    change (run (with_fs only_default_exists
                   (linux_host ∅ only_default_exists)) (initial ∅))
      with (run (linux_host ∅ only_default_exists) (initial ∅)) in Hrun.
    assert (Ha : a = "glnxa64").
    { apply (f_equal (fun r => arch (snd r))) in Hrun. simpl in Hrun.
      rewrite Harch in Hrun. now rewrite <- Hrun. }
    subst a. rewrite Ha in Hrun. eexists. split; [exact Hrun |]. simpl.
    split; [apply lookup_insert_eq |].
    split; [exact Hfound |]. repeat split.
Defined.

(** * Further properties *)

(** ** The platform and the version of Python *)

(** X1. The platform is supported exactly when it is Windows, Linux or
    Darwin; the architecture then follows the platform, and on Darwin the
    machine. The attribute [platform] is assigned in both cases; the
    second [raise] of the method is never reached. *)
Theorem set_platform_and_arch_outcome (h : host) (s : state) :
  (system h <> "Windows" -> system h <> "Linux" -> system h <> "Darwin" ->
   set_platform_and_arch h s
   = (Raise (RuntimeError (unsupported_platform (system h))),
      set_platform (system h) s))
  /\ (system h = "Windows" ->
      set_platform_and_arch h s
      = (Ok tt, set_arch "win64" (set_path_name "PATH"
                                    (set_platform "Windows" s))))
  /\ (system h = "Linux" ->
      set_platform_and_arch h s
      = (Ok tt, set_arch "glnxa64" (set_path_name "LD_LIBRARY_PATH"
                                      (set_platform "Linux" s))))
  /\ (system h = "Darwin" ->
      set_platform_and_arch h s
      = (Ok tt,
         set_arch (if String.eqb (mac_ver_machine h) "arm64"
                   then "maca64" else "maci64")
           (set_path_name "DYLD_LIBRARY_PATH" (set_platform "Darwin" s))))
  /\ (forall s', set_platform_and_arch h s = (Ok tt, s') ->
      In (arch s') arch_tags
      /\ PLATFORM_DICT !! platform s' = Some (path_name s')
      /\ platform s' = system h).
Proof.
  assert (Hcases :
    (system h = "Windows" \/ system h = "Linux" \/ system h = "Darwin")
    \/ PLATFORM_DICT !! system h = None).
  { destruct (PLATFORM_DICT !! system h) as [name|] eqn:Hname; [| now right].
    left. unfold PLATFORM_DICT in Hname.
    apply lookup_insert_Some in Hname as [[<- _] | [_ Hname]]; [now left |].
    apply lookup_insert_Some in Hname as [[<- _] | [_ Hname]];
      [now right; left |].
    apply lookup_singleton_Some in Hname as [<- _]. now right; right. }
  unfold set_platform_and_arch, bind, modify, get, raise. simpl.
  split; [| split; [| split; [| split]]].
  - intros Hw Hl Hd. destruct Hcases as [[? | [? | ?]] | ->]; easy.
  - intros ->. reflexivity.
  - intros ->. reflexivity.
  - intros ->. simpl. now destruct (String.eqb (mac_ver_machine h) "arm64").
  - intros s'. destruct Hcases as [[-> | [-> | ->]] | ->]; simpl.
    + intros [= <-]. simpl. auto.
    + intros [= <-]. simpl. auto.
    + destruct (String.eqb (mac_ver_machine h) "arm64");
        intros [= <-]; simpl; auto 6.
    + discriminate.
Qed.

Lemma set_platform_and_arch_outcome_witness :
  set_platform_and_arch freebsd_host (initial ∅)
  = (Raise (RuntimeError "FreeBSD is not a supported platform."),
     set_platform "FreeBSD" (initial ∅))
  /\ arch (snd (set_platform_and_arch (linux_with_path "") (initial ∅)))
     = "glnxa64".
Proof.
  split.
  - apply (set_platform_and_arch_outcome freebsd_host (initial ∅));
      discriminate.
  - rewrite (proj1 (proj2 (proj2 (set_platform_and_arch_outcome
                                    (linux_with_path "") (initial ∅))))
               eq_refl).
    reflexivity.
Defined.

(** Decimal numerals have no dot. *)
Lemma of_N_no_dot (n : N) : Str.has_char "." (Str.of_N n) = false.
Proof.
  unfold Str.of_N. induction (N.to_uint n); simpl; auto.
Qed.

Lemma of_N_inj (n m : N) : Str.of_N n = Str.of_N m -> n = m.
Proof.
  unfold Str.of_N. intros Heq.
  apply DecimalN.Unsigned.to_uint_inj.
  pose proof (NilEmpty.usu (N.to_uint n)) as Hn.
  pose proof (NilEmpty.usu (N.to_uint m)) as Hm.
  rewrite Heq in Hn. congruence.
Qed.

(** A version [major.minor] prints as [a.b] only when [major] prints as
    [a] and [minor] as [b]. *)
Lemma python_ver_inj (major minor a b : N) :
  Str.of_N major ++ "." ++ Str.of_N minor = Str.of_N a ++ "." ++ Str.of_N b ->
  major = a /\ minor = b.
Proof.
  intros Heq.
  assert (Hsplit : forall x y,
    Str.split "." (Str.of_N x ++ "." ++ Str.of_N y)
    = [Str.of_N x; Str.of_N y]).
  { intros x y. change ("." ++ Str.of_N y) with (String "." (Str.of_N y)).
    rewrite split_append by apply of_N_no_dot.
    now rewrite split_none by apply of_N_no_dot. }
  apply (f_equal (Str.split ".")) in Heq. rewrite !Hsplit in Heq.
  injection Heq as H1 H2. split; now apply of_N_inj.
Qed.

(** X2. The version of Python is accepted exactly when it is 3.8 or 3.9; any
    other one, 3.10 and 3.80 included, raises the error that names it. In
    both cases [python_ver] is assigned, and nothing else. *)
Theorem set_python_version_outcome (h : host) (s : state) :
  let ver := Str.of_N (fst (version_info h)) ++ "."
             ++ Str.of_N (snd (version_info h)) in
  (version_info h = (3, 8)%N \/ version_info h = (3, 9)%N ->
   set_python_version h s = (Ok tt, set_python_ver ver s))
  /\ (version_info h <> (3, 8)%N -> version_info h <> (3, 9)%N ->
      set_python_version h s
      = (Raise (RuntimeError (unsupported_python ver (str_supported h))),
         set_python_ver ver s)).
Proof.
  intros ver. unfold set_python_version, bind, modify, get, raise, ret.
  simpl. fold ver. split.
  - intros [Hv | Hv]; subst ver; rewrite Hv; reflexivity.
  - intros H38 H39. case_bool_decide as Hin; [| reflexivity].
    exfalso. unfold SUPPORTED_PYTHON_VERSIONS in Hin.
    destruct (version_info h) as [major minor]. simpl in ver. subst ver.
    apply elem_of_union in Hin as [Hin | Hin];
      apply elem_of_singleton in Hin.
    + apply (python_ver_inj major minor 3 8) in Hin as [-> ->]. now apply H38.
    + apply (python_ver_inj major minor 3 9) in Hin as [-> ->]. now apply H39.
Qed.

Lemma set_python_version_outcome_witness :
  fst (set_python_version (linux_with_path "") linux_state) = Ok tt
  /\ fst (set_python_version linux_python_3_10 linux_state)
     = Raise (RuntimeError
                "3.10 is not supported. The supported Python versions are {'3.9', '3.8'}.").
Proof.
  split.
  - rewrite (proj1 (set_python_version_outcome (linux_with_path "")
                      linux_state)); [reflexivity | now right].
  - rewrite (proj2 (set_python_version_outcome linux_python_3_10
                      linux_state)); [reflexivity | discriminate | discriminate].
Defined.

(** ** The registry, in full *)

(** Either no subkey starts with the version, or there is a first one
    that does. *)
Lemma first_match_or_none (sub_keys : list string) :
  Forall (fun k => Str.startswith k MATLAB_VER = false) sub_keys
  \/ exists pre sub_key post,
       sub_keys = (pre ++ sub_key :: post)%list
       /\ Forall (fun k => Str.startswith k MATLAB_VER = false) pre
       /\ Str.startswith sub_key MATLAB_VER = true.
Proof.
  induction sub_keys as [|k rest IH]; [left; constructor |].
  destruct (Str.startswith k MATLAB_VER) eqn:Hk.
  - right. exists [], k, rest. repeat split; [constructor | exact Hk].
  - destruct IH as [Hnone | (pre & sub_key & post & -> & Hpre & Hkey)].
    + left. now constructor.
    + right. exists (k :: pre), sub_key, post.
      repeat split; [now constructor | exact Hkey].
Qed.

Lemma find_key_first (pre post : list string) (sub_key : string) (s : state) :
  Forall (fun k => Str.startswith k MATLAB_VER = false) pre ->
  Str.startswith sub_key MATLAB_VER = true ->
  _find_matlab_key_from_windows_registry (pre ++ sub_key :: post) s
  = (Ok sub_key, s).
Proof.
  intros Hpre Hkey. unfold _find_matlab_key_from_windows_registry.
  rewrite (enum_loop_first_match pre post [] sub_key Hpre Hkey).
  now rewrite (startswith_truthy sub_key MATLAB_VER eq_refl Hkey).
Qed.

Lemma find_key_none (sub_keys : list string) (s : state) :
  Forall (fun k => Str.startswith k MATLAB_VER = false) sub_keys ->
  exists msg,
    _find_matlab_key_from_windows_registry sub_keys s
    = (Raise (RuntimeError msg), s).
Proof.
  intros Hnone. unfold _find_matlab_key_from_windows_registry.
  rewrite (enum_loop_no_match sub_keys [] Hnone). simpl.
  destruct sub_keys; eauto.
Qed.

(** X3. The subkey returned is one of the subkeys and starts with the
    version; the method succeeds exactly when such a subkey exists; it
    raises nothing but [RuntimeError]; and it assigns no attribute. *)
Theorem find_matlab_key_sound_complete (sub_keys : list string) (s : state) :
  (forall sub_key s',
     _find_matlab_key_from_windows_registry sub_keys s = (Ok sub_key, s') ->
     s' = s /\ In sub_key sub_keys
     /\ Str.startswith sub_key MATLAB_VER = true)
  /\ ((exists sub_key,
         In sub_key sub_keys /\ Str.startswith sub_key MATLAB_VER = true)
      <-> exists sub_key,
            _find_matlab_key_from_windows_registry sub_keys s
            = (Ok sub_key, s))
  /\ (forall e s',
        _find_matlab_key_from_windows_registry sub_keys s = (Raise e, s') ->
        s' = s /\ exists msg, e = RuntimeError msg).
Proof.
  destruct (first_match_or_none sub_keys)
    as [Hnone | (pre & k & post & -> & Hpre & Hkey)].
  - destruct (find_key_none sub_keys s Hnone) as [msg Hfail].
    rewrite Hfail. split; [| split].
    + discriminate.
    + split; [| intros [? ?]; discriminate].
      intros (k & Hin & Hk). rewrite Forall_forall in Hnone.
      apply list_elem_of_In in Hin. rewrite (Hnone k Hin) in Hk. discriminate.
    + intros e s' [= <- <-]. eauto.
  - rewrite (find_key_first pre post k s Hpre Hkey). split; [| split].
    + intros sub_key s' [= <- <-]. repeat split; [| exact Hkey].
      apply in_or_app. right. now left.
    + split; [eauto |]. intros _. exists k. split; [| exact Hkey].
      apply in_or_app. right. now left.
    + discriminate.
Qed.

(** X4. [get_matlab_root_from_windows_reg] returns a root exactly when the
    key opens, a first subkey starts with the version, and the value
    [MATLABROOT] of that subkey can be read: the root is that value. An
    [OSError] at the key or at the value becomes a [RuntimeError] that
    carries its text. No attribute is assigned. *)
Theorem windows_reg_root_iff (h : host) (s : state) :
  (forall root s',
     get_matlab_root_from_windows_reg h s = (Ok root, s')
     <-> s' = s
         /\ exists pre sub_key post,
              matlab_key (reg h) = inr (pre ++ sub_key :: post)%list
              /\ Forall (fun k => Str.startswith k MATLAB_VER = false) pre
              /\ Str.startswith sub_key MATLAB_VER = true
              /\ matlabroot_of (reg h) sub_key = inr root)
  /\ (forall err,
        matlab_key (reg h) = inl err ->
        get_matlab_root_from_windows_reg h s
        = (Raise (RuntimeError (no_windows_install ++ " " ++ err)), s))
  /\ (forall pre sub_key post err,
        matlab_key (reg h) = inr (pre ++ sub_key :: post)%list ->
        Forall (fun k => Str.startswith k MATLAB_VER = false) pre ->
        Str.startswith sub_key MATLAB_VER = true ->
        matlabroot_of (reg h) sub_key = inl err ->
        get_matlab_root_from_windows_reg h s
        = (Raise (RuntimeError (no_windows_install ++ " " ++ err)), s)).
Proof.
  unfold get_matlab_root_from_windows_reg, _get_root_from_version_key, bind.
  split; [| split].
  - intros root s'. split.
    + destruct (matlab_key (reg h)) as [err|sub_keys]; [discriminate |].
      destruct (first_match_or_none sub_keys)
        as [Hnone | (pre & k & post & -> & Hpre & Hkey)].
      * destruct (find_key_none sub_keys s Hnone) as [msg ->]. discriminate.
      * rewrite (find_key_first pre post k s Hpre Hkey).
        destruct (matlabroot_of (reg h) k) as [err|r] eqn:Hroot;
          [discriminate |].
        intros [= <- <-]. split; [reflexivity |].
        exists pre, k, post. auto.
    + intros (-> & pre & k & post & -> & Hpre & Hkey & Hroot).
      now rewrite (find_key_first pre post k s Hpre Hkey), Hroot.
  - intros err ->. reflexivity.
  - intros pre k post err -> Hpre Hkey Hroot.
    now rewrite (find_key_first pre post k s Hpre Hkey), Hroot.
Qed.

(** ** The search, in full *)

(** What the loop over the directories can give: every directory
    rejected; or a first directory that wins; or a first directory that
    raises. *)
Lemma dir_loop_cases (h : host) (a : string) (dirs : list string) (i : nat)
  (s : state) :
  (Forall (fun path => cand_outcome h a path = Ok "") dirs
   /\ dir_loop h (endings_of h a) dirs i "" s
      = (Ok ("", length dirs + i), scan_record h a dirs s))
  \/ (exists pre path post r,
        dirs = (pre ++ path :: post)%list
        /\ Forall (fun p => cand_outcome h a p = Ok "") pre
        /\ cand_outcome h a path = Ok r /\ Str.truthy r = true
        /\ dir_loop h (endings_of h a) dirs i "" s
           = (Ok (r, S (length pre + i)),
              cand_record h a path (scan_record h a pre s)))
  \/ (exists pre path post e,
        dirs = (pre ++ path :: post)%list
        /\ Forall (fun p => cand_outcome h a p = Ok "") pre
        /\ cand_outcome h a path = Raise e
        /\ dir_loop h (endings_of h a) dirs i "" s
           = (Raise e, cand_record h a path (scan_record h a pre s))).
Proof.
  revert i s. induction dirs as [|path dirs IH]; intros i s.
  - left. split; [constructor | reflexivity].
  - rewrite dir_loop_step.
    destruct (cand_outcome h a path) as [r|e] eqn:Hout.
    + destruct (Str.truthy r) eqn:Hr.
      * right. left. exists [], path, dirs, r.
        repeat split; [constructor | exact Hout | exact Hr].
      * apply truthy_false in Hr. subst r.
        destruct (IH (S i) (cand_record h a path s))
          as [[Hall Hloop]
             | [(pre & p & post & r & -> & Hpre & Hp & Hr & Hloop)
               | (pre & p & post & e & -> & Hpre & Hp & Hloop)]];
          rewrite Hloop.
        -- left. split; [now constructor |]. simpl. do 3 f_equal. lia.
        -- right. left. exists (path :: pre), p, post, r.
           repeat split; [now constructor | exact Hp | exact Hr |].
           simpl. do 3 f_equal. lia.
        -- right. right. exists (path :: pre), p, post, e.
           repeat split; [now constructor | exact Hp].
    + right. right. exists [], path, dirs, e.
      repeat split; [constructor | exact Hout].
Qed.

(** A directory that gives a root passes the three tests, and the root
    is the one derived from it. *)
Lemma cand_outcome_root (h : host) (a path r : string) :
  cand_outcome h a path = Ok r -> Str.truthy r = true ->
  accepted h a path /\ r = possible_root h path.
Proof.
  unfold cand_outcome, bin_outcome, accepted, verifies, has_marker.
  destruct (has_ending h a path); [| intros [= <-]; discriminate].
  destruct (isfile _ _); [| intros [= <-]; discriminate].
  destruct (verify_outcome h (possible_root h path)) as [[|]|e] eqn:Hver;
    [| intros [= <-]; discriminate | discriminate].
  intros [= <-] _. repeat split. intros s. now rewrite verify_eq.
Qed.

(** A directory that raises has the ending and the [MATLAB] file, and
    the error is the one of the parser for the [VersionInfo.xml] of its
    root. *)
Lemma cand_outcome_raise (h : host) (a path : string) (e : exn) :
  cand_outcome h a path = Raise e ->
  has_ending h a path = true /\ has_marker h path = true
  /\ isfile (fs h) (os_path_join h (possible_root h path) ["VersionInfo.xml"])
     = true
  /\ parse_raises (fs h)
       (os_path_join h (possible_root h path) ["VersionInfo.xml"]) e.
Proof.
  unfold cand_outcome, bin_outcome, verify_outcome, has_marker, parse_raises.
  destruct (has_ending h a path); [| discriminate].
  destruct (isfile (fs h) (os_path_join h path ["MATLAB"])); [| discriminate].
  destruct (isfile (fs h) _); [| discriminate].
  destruct (xml_parse (fs h) _) as [|e'|tree_root];
    [intros [= <-]; repeat split; now left
    | intros [= <-]; repeat split; now right
    | now case_bool_decide].
Qed.

(** Where an error of the search comes from: the search itself raises
    [RuntimeError]; anything else is raised by the parser, for a
    directory of the search path. *)
Lemma search_raises_source (h : host) (s s' : state) (e : exn) :
  search_path_for_directory_unix h s = (Raise e, s') ->
  (exists msg, e = RuntimeError msg)
  \/ (arch s' = arch s
      /\ exists path_string path,
           environ h !! path_name s = Some path_string
           /\ In path (Str.split (os_pathsep h) path_string)
           /\ has_ending h (arch s) path = true
           /\ has_marker h path = true
           /\ isfile (fs h)
                (os_path_join h (possible_root h path) ["VersionInfo.xml"])
              = true
           /\ parse_raises (fs h)
                (os_path_join h (possible_root h path) ["VersionInfo.xml"])
                e).
Proof.
  intros Hsearch.
  destruct (environ h !! path_name s) as [path_string|] eqn:Henv.
  - rewrite (search_eq h s path_string Henv) in Hsearch.
    destruct (dir_loop_cases h (arch s)
                (Str.split (os_pathsep h) path_string) 0 s)
      as [[_ Hloop]
         | [(pre & path & post & r & _ & _ & _ & Hr & Hloop)
           | (pre & path & post & e' & Hsplit & _ & Hp & Hloop)]];
      rewrite Hloop in Hsearch; simpl in Hsearch.
    + injection Hsearch as <- _. eauto.
    + rewrite Hr in Hsearch. simpl in Hsearch.
      destruct (isdir (fs h) r); [discriminate |].
      injection Hsearch as <- _. eauto.
    + injection Hsearch as <- <-.
      destruct (cand_outcome_raise h (arch s) path e' Hp)
        as (Hend & Hmark & Hfile & Hxml).
      right. split.
      * destruct (cand_record_fields h (arch s) path
                    (scan_record h (arch s) pre s)) as (-> & _).
        now destruct (scan_record_fields h (arch s) pre s) as (-> & _).
      * exists path_string, path.
        repeat split; try assumption.
        rewrite Hsplit. apply in_or_app. right. now left.
  - unfold search_path_for_directory_unix, bind in Hsearch.
    rewrite (create_path_list_unset h s Henv) in Hsearch.
    injection Hsearch as <- _. eauto.
Qed.

(** X5. Whatever [search_path_for_directory_unix] returns is a non-empty
    path that is a directory, derived from a directory of the search path
    that passes the three tests, the directories before it having been
    rejected. *)
Theorem search_returns_verified_root (h : host) (s s' : state)
  (matlab_root : string) :
  search_path_for_directory_unix h s = (Ok matlab_root, s') ->
  matlab_root <> ""
  /\ isdir (fs h) matlab_root = true
  /\ exists path_string pre path post,
       environ h !! path_name s = Some path_string
       /\ Str.split (os_pathsep h) path_string = (pre ++ path :: post)%list
       /\ Forall (fun p => cand_outcome h (arch s) p = Ok "") pre
       /\ accepted h (arch s) path
       /\ matlab_root = possible_root h path.
Proof.
  intros Hsearch.
  destruct (environ h !! path_name s) as [path_string|] eqn:Henv.
  - rewrite (search_eq h s path_string Henv) in Hsearch.
    destruct (dir_loop_cases h (arch s)
                (Str.split (os_pathsep h) path_string) 0 s)
      as [[_ Hloop]
         | [(pre & path & post & r & Hsplit & Hpre & Hp & Hr & Hloop)
           | (pre & path & post & e & _ & _ & _ & Hloop)]];
      rewrite Hloop in Hsearch; simpl in Hsearch; [discriminate | | discriminate].
    rewrite Hr in Hsearch. simpl in Hsearch.
    destruct (isdir (fs h) r) eqn:Hdir; [| discriminate].
    injection Hsearch as <- _.
    destruct (cand_outcome_root h (arch s) path r Hp Hr) as [Hacc Hroot].
    split; [now apply truthy_true |]. split; [exact Hdir |].
    exists path_string, pre, path, post. auto.
  - unfold search_path_for_directory_unix, bind in Hsearch.
    rewrite (create_path_list_unset h s Henv) in Hsearch. discriminate.
Qed.

(** X6. An error of the search that is not a [RuntimeError] comes from
    [xml.parse]: it is raised for a directory of the search path that has
    the ending and the [MATLAB] file and whose root holds a
    [VersionInfo.xml], and it is the parse error when that file is
    malformed, or the error that the parser fails with otherwise (an
    encoding that it does not know, a file that cannot be read). *)
Theorem search_exceptions (h : host) (s s' : state) (e : exn) :
  search_path_for_directory_unix h s = (Raise e, s') ->
  (exists msg, e = RuntimeError msg)
  \/ (exists path_string path,
        environ h !! path_name s = Some path_string
        /\ In path (Str.split (os_pathsep h) path_string)
        /\ has_ending h (arch s) path = true
        /\ has_marker h path = true
        /\ isfile (fs h)
             (os_path_join h (possible_root h path) ["VersionInfo.xml"])
           = true
        /\ ((xml_parse (fs h)
               (os_path_join h (possible_root h path) ["VersionInfo.xml"])
             = Malformed /\ e = ParseError)
            \/ xml_parse (fs h)
                 (os_path_join h (possible_root h path) ["VersionInfo.xml"])
               = Fails e)).
Proof.
  intros Hsearch.
  destruct (search_raises_source h s s' e Hsearch) as [Hmsg | [_ Hparse]];
    [now left | right; exact Hparse].
Qed.

(** X7. The search assigns no attribute but [found_matlab], and writes no
    file, whether it returns or raises. *)
Theorem search_only_assigns_found_matlab (h : host) (s : state) :
  let s' := snd (search_path_for_directory_unix h s) in
  arch s' = arch s /\ path_name s' = path_name s
  /\ python_ver s' = python_ver s /\ platform s' = platform s
  /\ files s' = files s.
Proof.
  intros s'. subst s'.
  destruct (environ h !! path_name s) as [path_string|] eqn:Henv.
  - rewrite (search_eq h s path_string Henv).
    destruct (dir_loop_state h (arch s)
                (Str.split (os_pathsep h) path_string) 0 s) as [n Hn].
    destruct (dir_loop _ _ _ _ _ _) as [[found|e] s']; simpl in Hn; subst s'.
    + destruct (negb (Str.truthy (fst found))); simpl;
        [| destruct (negb (isdir _ _)); simpl];
        apply scan_record_fields.
    + simpl. apply scan_record_fields.
  - unfold search_path_for_directory_unix, bind.
    now rewrite (create_path_list_unset h s Henv).
Qed.

(** X8. When every directory of the search path is rejected, the message of
    the failure is selected by the release text read last, [t], if one
    was read: an element without text, or with an empty one, gives the
    message that tells to set the path, as if nothing had been read; a
    text that is a version number of the table gives the message that
    names its release and the version to install; any other text, the
    release names of the table included, gives the message for releases
    older than R2019a. *)
Theorem search_failure_by_last_release (h : host) (s : state)
  (path_string : string) (pre post : list string) (path : string)
  (t : option string) :
  environ h !! path_name s = Some path_string ->
  Str.split (os_pathsep h) path_string = (pre ++ path :: post)%list ->
  Forall (rejected h (arch s)) (pre ++ path :: post) ->
  descriptor_read h (arch s) path = Some t ->
  Forall (fun later => descriptor_read h (arch s) later = None) post ->
  fst (search_path_for_directory_unix h s)
  = Raise (RuntimeError
      match t with
      | None | Some "" => set_path (path_name s) (arch s) (path_name s)
      | Some found =>
          match VER_TO_REL !! found with
          | Some ver => incompatible_ver ver found
          | None => minimum_required
          end
      end).
Proof.
  intros Henv Hsplit Hrej Hpath Hpost.
  rewrite <- Hsplit in Hrej.
  assert (Hout : Forall (fun p => cand_outcome h (arch s) p = Ok "")
                   (Str.split (os_pathsep h) path_string)).
  { eapply Forall_impl; [exact Hrej |].
    intros p Hp. now apply rejected_outcome. }
  rewrite (search_all_rejected h s path_string Henv Hout). simpl.
  unfold no_root_message.
  rewrite scan_record_found, Hsplit, fold_left_app. simpl.
  rewrite Hpath. simpl. rewrite (fold_descriptor_none h (arch s) post t Hpost).
  rewrite <- Hsplit.
  destruct (scan_record_fields h (arch s)
              (Str.split (os_pathsep h) path_string) s) as (-> & -> & _).
  destruct t as [[|c found]|]; reflexivity.
Qed.

(** ** The list of directories *)

Lemma split_cons_nonempty (c : ascii) (s : string) :
  exists first rest, Str.split c s = first :: rest.
Proof.
  destruct (Str.split c s) as [|first rest] eqn:Hs; [| eauto].
  now apply split_not_nil in Hs.
Qed.

(** Joining the parts of a split gives the string back. *)
Lemma join_split (c : ascii) (s : string) :
  Str.join (String c "") (Str.split c s) = s.
Proof.
  unfold Str.join. induction s as [|a s IH]; [reflexivity |].
  simpl. destruct (Str.split c s) as [|first rest] eqn:Hs;
    [now apply split_not_nil in Hs |].
  destruct (Ascii.eqb a c) eqn:Hac.
  - apply Ascii.eqb_eq in Hac. subst a.
    change (String.concat (String c "") ("" :: first :: rest))
      with (String c (String.concat (String c "") (first :: rest))).
    now rewrite IH.
  - destruct rest as [|second rest]; simpl in *; now rewrite IH.
Qed.

(** No part of a split has the separator. *)
Lemma split_no_separator (c : ascii) (s : string) :
  Forall (fun part => Str.has_char c part = false) (Str.split c s).
Proof.
  induction s as [|a s IH]; simpl; [now repeat constructor |].
  destruct (Ascii.eqb a c) eqn:Hac; [now constructor |].
  destruct (Str.split c s) as [|first rest].
  - constructor; [| constructor]. simpl. now rewrite Hac.
  - apply Forall_cons in IH as [Hfirst Hrest].
    constructor; [| exact Hrest]. simpl. now rewrite Hac.
Qed.

(** X9. The list that [_create_path_list] returns is never empty, none of
    its directories holds the separator, and joined by the separator they
    give back the value of the variable. The method assigns nothing. *)
Theorem create_path_list_round_trip (h : host) (s s' : state)
  (path_dirs : list string) :
  _create_path_list h s = (Ok path_dirs, s') ->
  s' = s /\ path_dirs <> []
  /\ Forall (fun dir => Str.has_char (os_pathsep h) dir = false) path_dirs
  /\ environ h !! path_name s
     = Some (Str.join (String (os_pathsep h) "") path_dirs).
Proof.
  intros Hlist.
  destruct (environ h !! path_name s) as [path_string|] eqn:Henv.
  - rewrite (create_path_list_set h s path_string Henv) in Hlist.
    injection Hlist as <- <-.
    split; [reflexivity |]. split; [apply split_not_nil |].
    split; [apply split_no_separator |]. now rewrite join_split.
  - rewrite (create_path_list_unset h s Henv) in Hlist. discriminate.
Qed.

(** ** The directory to add to the search path *)

Lemma split_app_sep (c : ascii) (s t : string) :
  Str.split c (s ++ String c t) = (Str.split c s ++ Str.split c t)%list.
Proof.
  induction s as [|a s IH]; simpl.
  - now rewrite Ascii.eqb_refl.
  - rewrite IH. destruct (Ascii.eqb a c); [reflexivity |].
    destruct (Str.split c s) as [|first rest] eqn:Hs; [| reflexivity].
    now apply split_not_nil in Hs.
Qed.

Lemma prefix_cons (a b : ascii) (p s : string) :
  String.prefix (String a p) (String b s)
  = if ascii_dec a b then String.prefix p s else false.
Proof. reflexivity. Qed.

(** The leading separators of a path that does not end with one are not
    changed by what is appended to it. *)
Lemma startswith_append (n : nat) (root x : string) :
  Str.truthy root = true -> Str.endswith root "/" = false ->
  Str.startswith (root ++ x) (Nat.iter n (String "/"%char) "")
  = Str.startswith root (Nat.iter n (String "/"%char) "").
Proof.
  unfold Str.startswith. revert root.
  induction n as [|n IH]; intros root Hroot Hend.
  - simpl. destruct root; [discriminate | reflexivity].
  - destruct root as [|c r]; [discriminate |].
    change (Nat.iter (S n) (String "/"%char) "")
      with (String "/"%char (Nat.iter n (String "/"%char) "")).
    change (String c r ++ x) with (String c (r ++ x)).
    rewrite !prefix_cons.
    destruct (ascii_dec "/" c) as [<- | Hne]; [| reflexivity].
    assert (Hr : Str.truthy r = true).
    { destruct r; [discriminate | reflexivity]. }
    apply IH; [exact Hr |].
    rewrite endswith_unfold in Hend.
    destruct (String.eqb (String "/" r) "/"); [discriminate | exact Hend].
Qed.

Lemma norm_step_push (i : nat) (new_comps : list string) (comp : string) :
  comp <> "" -> comp <> "." -> comp <> ".." ->
  posixpath.norm_step i new_comps comp = (new_comps ++ [comp])%list.
Proof.
  intros H1 H2 H3. unfold posixpath.norm_step.
  apply String.eqb_neq in H1, H2, H3. now rewrite H1, H2, H3.
Qed.

Lemma norm_step_pop (i : nat) (new_comps : list string) (comp : string) :
  comp <> ".." ->
  posixpath.norm_step i (new_comps ++ [comp]) ".." = new_comps.
Proof.
  intros Hcomp. unfold posixpath.norm_step. simpl.
  rewrite last_last, removelast_last, length_app. simpl.
  apply String.eqb_neq in Hcomp. rewrite Hcomp.
  replace (length new_comps + 1 =? 0)%nat with false
    by (symmetry; apply Nat.eqb_neq; lia).
  now rewrite andb_false_r.
Qed.

(** Going into [bin/<arch>] and two levels up comes back to the root. *)
Lemma normpath_bin_arch (root a : string) :
  In a arch_tags ->
  Str.truthy root = true -> Str.endswith root "/" = false ->
  posixpath.normpath (root ++ "/bin/" ++ a ++ "/../..")
  = posixpath.normpath root.
Proof.
  intros Ha Hroot Hend. unfold posixpath.normpath, posixpath.sep.
  assert (Hne : String.eqb (root ++ "/bin/" ++ a ++ "/../..") "" = false).
  { apply String.eqb_neq. destruct root; discriminate. }
  assert (Hne' : String.eqb root "" = false).
  { apply String.eqb_neq. destruct root; discriminate. }
  rewrite Hne, Hne'. cbv zeta.
  rewrite (startswith_append 1 root _ Hroot Hend),
    (startswith_append 2 root _ Hroot Hend),
    (startswith_append 3 root _ Hroot Hend).
  change (Nat.iter 1 (String "/"%char) "") with "/".
  change (Nat.iter 2 (String "/"%char) "") with "//".
  change (Nat.iter 3 (String "/"%char) "") with "///".
  change (root ++ "/bin/" ++ a ++ "/../..")
    with (root ++ String "/" ("bin/" ++ a ++ "/../..")).
  rewrite split_app_sep.
  assert (Hcomps : Str.split "/" ("bin/" ++ a ++ "/../..")
                   = ["bin"; a; ".."; ".."]).
  { destruct Ha as [<- | [<- | [<- | [<- | []]]]]; reflexivity. }
  assert (Ha' : a <> "" /\ a <> "." /\ a <> "..").
  { destruct Ha as [<- | [<- | [<- | [<- | []]]]]; repeat split; discriminate. }
  destruct Ha' as (Ha1 & Ha2 & Ha3).
  rewrite Hcomps, fold_left_app.
  set (i := if Str.startswith root "/" then _ else _).
  set (comps := fold_left (posixpath.norm_step i) (Str.split "/" root) []).
  cbn [fold_left].
  rewrite (norm_step_push i comps "bin") by discriminate.
  rewrite (norm_step_push i _ a Ha1 Ha2 Ha3).
  rewrite (norm_step_pop i _ a Ha3).
  rewrite (norm_step_pop i comps "bin") by discriminate.
  reflexivity.
Qed.

(** X10. Adding [<root>/bin/<arch>] to the search path, as the error message
    tells to, leads the search back to the root: on Linux and macOS, for
    a root that does not end with a separator, the directory that
    [write_text_file] writes on the second line has the ending that the
    search looks for, with or without a trailing separator, and the root
    that [_get_matlab_root_from_unix_bin] derives from it is the root,
    normalized. *)
Theorem possible_root_of_bin_arch (h : host) (root a : string) :
  system h <> "Windows" -> In a arch_tags ->
  Str.truthy root = true -> Str.endswith root "/" = false ->
  os_path_join h root ["bin"; a] = root ++ "/bin/" ++ a
  /\ has_ending h a (root ++ "/bin/" ++ a) = true
  /\ has_ending h a (root ++ "/bin/" ++ a ++ "/") = true
  /\ possible_root h (root ++ "/bin/" ++ a) = posixpath.normpath root
  /\ possible_root h (root ++ "/bin/" ++ a ++ "/") = posixpath.normpath root.
Proof.
  intros Hposix Ha Hroot Hend.
  assert (Hplain : plain a = true).
  { destruct Ha as [<- | [<- | [<- | [<- | []]]]]; reflexivity. }
  assert (Hstart : Str.startswith a "/" = false).
  { destruct Ha as [<- | [<- | [<- | [<- | []]]]]; reflexivity. }
  assert (Hdir : Str.truthy (root ++ "/bin/" ++ a) = true
                 /\ Str.endswith (root ++ "/bin/" ++ a) "/" = false).
  { destruct (join_step_plain root "bin" Hroot Hend eq_refl) as (_ & Ht & He).
    destruct (join_step_plain _ a Ht He Hplain) as (_ & Ht' & He').
    rewrite !append_assoc in Ht', He'. now split. }
  destruct Hdir as [Hdt Hde].
  assert (Hendings : endings_of h a = ["bin/" ++ a; "bin/" ++ a ++ "/"]).
  { unfold endings_of. rewrite (posix_join h Hposix), (posix_sep h Hposix).
    unfold posixpath.join. simpl. unfold posixpath.join_step, posixpath.sep.
    rewrite Hstart. simpl. now rewrite ?append_assoc. }
  split; [| split; [| split; [| split]]].
  - rewrite (posix_join h Hposix), join_plain; simpl; rewrite ?Hplain;
      try easy. now rewrite ?append_assoc.
  - unfold has_ending. rewrite Hendings. cbn [existsb].
    assert (H : Str.endswith (root ++ "/bin/" ++ a) ("bin/" ++ a) = true).
    { apply endswith_iff. exists (root ++ "/"). now rewrite append_assoc. }
    now rewrite H.
  - unfold has_ending. rewrite Hendings. cbn [existsb].
    assert (H : Str.endswith (root ++ "/bin/" ++ a ++ "/") ("bin/" ++ a ++ "/")
                = true).
    { apply endswith_iff. exists (root ++ "/"). now rewrite append_assoc. }
    rewrite H. now rewrite orb_true_r.
  - unfold possible_root.
    rewrite (posix_join h Hposix), (posix_normpath h Hposix).
    rewrite join_plain by easy. simpl.
    rewrite <- (normpath_bin_arch root a Ha Hroot Hend).
    now rewrite ?append_assoc.
  - unfold possible_root.
    rewrite (posix_join h Hposix), (posix_normpath h Hposix).
    rewrite <- (normpath_bin_arch root a Ha Hroot Hend).
    f_equal. unfold posixpath.join, os_pardir. cbn [fold_left].
    assert (Hslash : Str.endswith (root ++ "/bin/" ++ a ++ "/") "/" = true).
    { apply endswith_iff. exists (root ++ "/bin/" ++ a).
      now rewrite ?append_assoc. }
    assert (Hfirst : posixpath.join_step (root ++ "/bin/" ++ a ++ "/") ".."
                     = (root ++ "/bin/" ++ a ++ "/") ++ "..").
    { unfold posixpath.join_step, posixpath.sep.
      change (Str.startswith ".." "/") with false. cbv iota.
      now rewrite Hslash, orb_true_r. }
    rewrite Hfirst.
    assert (Hnext : Str.truthy ((root ++ "/bin/" ++ a ++ "/") ++ "..") = true
                    /\ Str.endswith ((root ++ "/bin/" ++ a ++ "/") ++ "..") "/"
                       = false).
    { split; [now apply append_truthy_r |].
      now rewrite endswith_append. }
    destruct Hnext as [Hnt Hne].
    destruct (join_step_plain _ ".." Hnt Hne eq_refl) as (-> & _).
    now rewrite ?append_assoc.
Qed.

(** X11. The test of the ending is one on the text: on Linux and macOS, a
    directory has the ending exactly when its name ends with
    [bin/<arch>], or with that and one separator, whatever comes before,
    be it the middle of a name. *)
Theorem has_ending_iff (h : host) (a path : string) :
  system h <> "Windows" -> Str.startswith a "/" = false ->
  has_ending h a path = true
  <-> exists before,
        path = before ++ "bin/" ++ a \/ path = before ++ "bin/" ++ a ++ "/".
Proof.
  intros Hposix Hstart.
  assert (Hendings : endings_of h a = ["bin/" ++ a; ("bin/" ++ a) ++ "/"]).
  { unfold endings_of. rewrite (posix_join h Hposix), (posix_sep h Hposix).
    unfold posixpath.join. cbn [fold_left].
    unfold posixpath.join_step, posixpath.sep.
    rewrite Hstart. reflexivity. }
  unfold has_ending. rewrite Hendings. cbn [existsb].
  rewrite orb_false_r, orb_true_iff, !endswith_iff. rewrite append_assoc.
  split.
  - intros [[p ->] | [p ->]]; exists p; auto.
  - intros [p [-> | ->]]; eauto.
Qed.

(** ** [run], in full *)

Lemma set_platform_and_arch_platform (h : host) (s s1 : state) :
  set_platform_and_arch h s = (Ok tt, s1) -> platform s1 = system h.
Proof.
  unfold set_platform_and_arch, bind, modify, get, raise. simpl.
  destruct (PLATFORM_DICT !! system h); [| discriminate]. simpl.
  destruct (String.eqb (system h) "Windows"); [now intros [= <-] |].
  destruct (String.eqb (system h) "Linux"); [now intros [= <-] |].
  destruct (String.eqb (system h) "Darwin"); [| discriminate].
  now destruct (String.eqb (mac_ver_machine h) "arm64"); intros [= <-].
Qed.




(** The search when a directory passes the three tests after rejected
    ones. *)
Lemma search_first_accepted (h : host) (s : state) (path_string : string)
  (pre post : list string) (path : string) :
  system h <> "Windows" ->
  environ h !! path_name s = Some path_string ->
  Str.split (os_pathsep h) path_string = (pre ++ path :: post)%list ->
  Forall (rejected h (arch s)) pre ->
  accepted h (arch s) path ->
  isdir (fs h) (possible_root h path) = true ->
  search_path_for_directory_unix h s
  = (Ok (possible_root h path),
     cand_record h (arch s) path (scan_record h (arch s) pre s)).
Proof.
  intros Hposix Henv Hsplit Hpre Hpath Hdir.
  rewrite (search_eq h s path_string Henv), Hsplit.
  rewrite dir_loop_rejected.
  - rewrite dir_loop_step, (accepted_outcome h _ _ Hpath).
    rewrite (possible_root_truthy h Hposix). simpl.
    now rewrite (possible_root_truthy h Hposix), Hdir.
  - eapply Forall_impl; [exact Hpre |].
    intros p Hp. now apply rejected_outcome.
Qed.





(** X14. On Windows, when Python is supported, the key opens, a first subkey
    starts with the version and its [MATLABROOT] can be read, every step
    of [run] before the write succeeds with that root and the
    architecture [win64], whatever the file system and the environment
    hold: neither is looked at. When the file can be written, [run]
    leaves in it [win64] and the root joined by [ntpath.join] with
    [bin\win64], with [extern\engines\python\dist\matlab\engine\win64]
    and with [extern\bin\win64], one on each line, and returns what
    [build_py.run] returns. When the file cannot be opened, [run] raises
    the error of the [open] and has written nothing. *)
Theorem run_windows_registry (h : host) (f : filesystem)
  (env : gmap string string) (s : state) (pre post : list string)
  (sub_key matlab_root : string) :
  system h = "Windows" ->
  version_info h = (3, 8)%N \/ version_info h = (3, 9)%N ->
  matlab_key (reg h) = inr (pre ++ sub_key :: post)%list ->
  Forall (fun k => Str.startswith k MATLAB_VER = false) pre ->
  Str.startswith sub_key MATLAB_VER = true ->
  matlabroot_of (reg h) sub_key = inr matlab_root ->
  exists s2,
    discovered (with_environ env (with_fs f h)) s matlab_root s2
    /\ arch s2 = "win64" /\ path_name s2 = "PATH"
    /\ found_matlab s2 = found_matlab s /\ files s2 = files s
    /\ (writable f (file_location h) ->
        run (with_environ env (with_fs f h)) s
        = (build_py_run h,
           set_files
             (<[file_location h :=
                  "win64" ++ nl
                  ++ ntpath_join h matlab_root ["bin"; "win64"] ++ nl
                  ++ ntpath_join h matlab_root
                       ["extern"; "engines"; "python"; "dist"; "matlab";
                        "engine"; "win64"] ++ nl
                  ++ ntpath_join h matlab_root ["extern"; "bin"; "win64"]]>
                (files s)) s2))
    /\ (forall e, fopen_w f (file_location h) = Some e ->
        run (with_environ env (with_fs f h)) s = (Raise e, s2)).
Proof.
  intros Hsys Hver Hkey Hpre Hsub Hroot.
  set (h' := with_environ env (with_fs f h)).
  set (s1 := set_arch "win64" (set_path_name "PATH" (set_platform "Windows" s))).
  set (s2 := set_python_ver
               (Str.of_N (fst (version_info h)) ++ "."
                ++ Str.of_N (snd (version_info h))) s1).
  assert (Hplat : set_platform_and_arch h' s = (Ok tt, s1)).
  { unfold set_platform_and_arch, bind, modify, get, raise. simpl.
    rewrite Hsys. reflexivity. }
  assert (Hpy : set_python_version h' s1 = (Ok tt, s2)).
  { unfold set_python_version, bind, modify, get, raise, ret. simpl.
    subst s2. destruct Hver as [-> | ->]; reflexivity. }
  assert (Hreg : get_matlab_root_from_windows_reg h' s2 = (Ok matlab_root, s2)).
  { unfold get_matlab_root_from_windows_reg, bind. simpl. rewrite Hkey.
    rewrite (find_key_first pre post sub_key s2 Hpre Hsub).
    unfold _get_root_from_version_key. simpl. now rewrite Hroot. }
  assert (Hfound : discovered h' s matlab_root s2).
  { exists s1, s2. do 2 (split; [assumption |]). left. now split. }
  assert (Hjoin : os_path_join h' = ntpath_join h).
  { unfold os_path_join, is_windows. simpl. now rewrite Hsys. }
  exists s2. split; [exact Hfound |]. do 4 (split; [reflexivity |]).
  rewrite (run_discovered h' s matlab_root s2 Hfound).
  split.
  - intros Hwritable. unfold bind.
    rewrite (write_text_file_ok h' matlab_root s2 Hwritable).
    now rewrite Hjoin.
  - intros e Hopen. unfold bind.
    now rewrite (write_text_file_open_fails h' matlab_root s2 e Hopen).
Qed.

Lemma run_windows_registry_witness :
  (exists s',
     run (with_fs windows_checkout (windows_host example_registry)) (initial ∅)
     = (Ok tt, s')
     /\ files s' !! "C:\pkg\src\matlab\engine\_arch.txt"
        = Some ("win64" ++ nl ++ "C:\Program Files\MATLAB\R2022a\bin\win64"
                ++ nl
                ++ "C:\Program Files\MATLAB\R2022a\extern\engines\python\dist\matlab\engine\win64"
                ++ nl ++ "C:\Program Files\MATLAB\R2022a\extern\bin\win64"))
  /\ (exists s',
        run (windows_host example_registry) (initial ∅)
        = (Raise (PyError "FileNotFoundError"
                    "[Errno 2] No such file or directory"), s')
        /\ files s' = ∅).
Proof.
  split.
  - destruct (run_windows_registry (windows_host example_registry)
                windows_checkout ∅ (initial ∅) ["9.11.0"] [] "9.12.3"
                "C:\Program Files\MATLAB\R2022a")
      as (s2 & _ & _ & _ & _ & _ & Hrun & _).
    + reflexivity.
    + now right.
    + reflexivity.
    + repeat constructor.
    + reflexivity.
    + reflexivity.
    + assert (Hwritable :
        writable windows_checkout
          (file_location (windows_host example_registry))).
      { split; [reflexivity | split; intros; reflexivity]. }
      eexists. split; [exact (Hrun Hwritable) |]. apply lookup_insert_eq.
  - destruct (run_windows_registry (windows_host example_registry)
                (example_fs [] [] []) ∅ (initial ∅) ["9.11.0"] [] "9.12.3"
                "C:\Program Files\MATLAB\R2022a")
      as (s2 & _ & _ & _ & _ & Hfiles & _ & Hrun).
    + reflexivity.
    + now right.
    + reflexivity.
    + repeat constructor.
    + reflexivity.
    + reflexivity.
    + exists s2. split; [| exact Hfiles].
      exact (Hrun _ eq_refl).
Defined.

(** X15. On Linux and macOS, when Python is supported, the default location
    does not exist, and a directory of the search path passes the three
    tests after directories that are rejected, every step of [run] before
    the write succeeds with the root derived from that directory,
    whatever the registry holds, and [found_matlab] is the expected
    release. When the file can be written, [run] leaves in it the
    architecture tag and the root joined by [posixpath.join] with
    [bin/<arch>], with [extern/engines/python/dist/matlab/engine/<arch>]
    and with [extern/bin/<arch>], one on each line, and returns what
    [build_py.run] returns. When the file cannot be opened, [run] raises
    the error of the [open] and has written nothing. *)
Theorem run_unix_search (h : host) (r : registry) (s s1 : state)
  (default path_string : string) (pre post : list string) (path : string) :
  set_platform_and_arch h s = (Ok tt, s1) ->
  DEFAULT_INSTALLS !! system h = Some default ->
  version_info h = (3, 8)%N \/ version_info h = (3, 9)%N ->
  exists_ (fs h) default = false ->
  environ h !! path_name s1 = Some path_string ->
  Str.split (os_pathsep h) path_string = (pre ++ path :: post)%list ->
  Forall (rejected h (arch s1)) pre ->
  accepted h (arch s1) path ->
  isdir (fs h) (possible_root h path) = true ->
  exists s3,
    discovered (with_reg r h) s (possible_root h path) s3
    /\ arch s3 = arch s1 /\ files s3 = files s
    /\ found_matlab s3 = Some MATLAB_REL
    /\ (writable (fs h) (file_location h) ->
        run (with_reg r h) s
        = (build_py_run h,
           set_files
             (<[file_location h :=
                  arch s1 ++ nl
                  ++ posixpath.join (possible_root h path) ["bin"; arch s1]
                  ++ nl
                  ++ posixpath.join (possible_root h path)
                       ["extern"; "engines"; "python"; "dist"; "matlab";
                        "engine"; arch s1] ++ nl
                  ++ posixpath.join (possible_root h path)
                       ["extern"; "bin"; arch s1]]>
                (files s)) s3))
    /\ (forall e, fopen_w (fs h) (file_location h) = Some e ->
        run (with_reg r h) s = (Raise e, s3)).
Proof.
  intros Hplat Hdefault Hver Hexists Henv Hsplit Hpre Hpath Hdir.
  assert (Hsys : system h <> "Windows").
  { intros Hw. rewrite Hw in Hdefault. discriminate. }
  set (h' := with_reg r h).
  set (s2 := set_python_ver
               (Str.of_N (fst (version_info h)) ++ "."
                ++ Str.of_N (snd (version_info h))) s1).
  assert (Hpy : set_python_version h' s1 = (Ok tt, s2)).
  { unfold set_python_version, bind, modify, get, raise, ret. simpl.
    subst s2. destruct Hver as [-> | ->]; reflexivity. }
  assert (Hp1 : platform s1 = system h)
    by exact (set_platform_and_arch_platform h s s1 Hplat).
  assert (Hdef : unix_default_install_exists h' s2 = (Ok false, s2)).
  { unfold unix_default_install_exists, bind, get, ret. simpl.
    now rewrite Hp1, Hdefault, Hexists. }
  pose proof (search_first_accepted h s2 path_string pre post path Hsys
                Henv Hsplit Hpre Hpath Hdir) as Hsearch.
  set (s3 := cand_record h (arch s2) path (scan_record h (arch s2) pre s2))
    in Hsearch.
  assert (Hfound : discovered h' s (possible_root h path) s3).
  { exists s1, s2. split; [exact Hplat |]. split; [exact Hpy |].
    right. right. split; [simpl; now rewrite Hp1 |].
    exists s2. split; [exact Hdef | exact Hsearch]. }
  assert (Hfields : arch s3 = arch s1 /\ files s3 = files s).
  { subst s3.
    destruct (cand_record_fields h (arch s2) path
                (scan_record h (arch s2) pre s2)) as (-> & _ & _ & _ & ->).
    destruct (scan_record_fields h (arch s2) pre s2) as (-> & _ & _ & _ & ->).
    simpl. split; [reflexivity |].
    pose proof (set_platform_and_arch_files h s) as Hf.
    now rewrite Hplat in Hf. }
  destruct Hfields as [Harch Hfiles].
  assert (Hrel : found_matlab s3 = Some MATLAB_REL).
  { subst s3. rewrite cand_record_found.
    destruct Hpath as (Hend & Hmark & Hverify).
    unfold descriptor_read. simpl in *. rewrite Hend, Hmark. simpl.
    specialize (Hverify s2). rewrite verify_eq in Hverify. simpl in Hverify.
    unfold verify_outcome in Hverify. unfold release_read.
    destruct (isfile (fs h) _); [| discriminate].
    destruct (xml_parse (fs h) _) as [|e|tree_root];
      [discriminate | discriminate |].
    injection Hverify as Hrel. apply bool_decide_eq_true in Hrel.
    destruct (first_release tree_root) as [child|]; simpl in *;
      [exact Hrel | discriminate]. }
  exists s3. split; [exact Hfound |]. do 3 (split; [assumption |]).
  rewrite (run_discovered h' s _ s3 Hfound).
  split.
  - intros Hwritable. unfold bind.
    rewrite (write_text_file_ok h' (possible_root h path) s3 Hwritable).
    assert (Hjoin : os_path_join h' = posixpath.join)
      by exact (posix_join h' Hsys).
    rewrite Hjoin, Harch, Hfiles. reflexivity.
  - intros e Hopen. unfold bind.
    now rewrite (write_text_file_open_fails h' _ s3 e Hopen).
Qed.

Lemma run_unix_search_witness :
  (exists s',
     run (linux_with_path "/opt/x/bin/glnxa64:/opt/y/bin/glnxa64/") (initial ∅)
     = (Ok tt, s')
     /\ files s' !! "/home/user/matlabengine/src/matlab/engine/_arch.txt"
        = Some ("glnxa64" ++ nl ++ "/opt/y/bin/glnxa64" ++ nl
                ++ "/opt/y/extern/engines/python/dist/matlab/engine/glnxa64"
                ++ nl ++ "/opt/y/extern/bin/glnxa64"))
  /\ (exists s',
        run (linux_host {[ "LD_LIBRARY_PATH" := "/opt/y/bin/glnxa64" ]}
               tree_without_checkout) (initial ∅)
        = (Raise (PyError "FileNotFoundError"
                    "[Errno 2] No such file or directory"), s')
        /\ files s' = ∅).
Proof.
  split.
  - destruct (run_unix_search
                (linux_with_path "/opt/x/bin/glnxa64:/opt/y/bin/glnxa64/")
                no_registry (initial ∅)
                (set_arch "glnxa64" (set_path_name "LD_LIBRARY_PATH"
                                       (set_platform "Linux" (initial ∅))))
                "/usr/local/MATLAB/R2022a"
                "/opt/x/bin/glnxa64:/opt/y/bin/glnxa64/"
                ["/opt/x/bin/glnxa64"] [] "/opt/y/bin/glnxa64/")
      as (s3 & _ & _ & _ & _ & Hrun & _).
    + reflexivity.
    + reflexivity.
    + now right.
    + reflexivity.
    + reflexivity.
    + reflexivity.
    + constructor; [| constructor]. right. left. reflexivity.
    + split; [reflexivity | split; [reflexivity | intros s; reflexivity]].
    + reflexivity.
    + assert (Hwritable :
        writable example_tree
          (file_location
             (linux_with_path "/opt/x/bin/glnxa64:/opt/y/bin/glnxa64/"))).
      { split; [reflexivity | split; intros; reflexivity]. }
      eexists. split; [exact (Hrun Hwritable) |]. apply lookup_insert_eq.
  - destruct (run_unix_search
                (linux_host {[ "LD_LIBRARY_PATH" := "/opt/y/bin/glnxa64" ]}
                   tree_without_checkout)
                no_registry (initial ∅)
                (set_arch "glnxa64" (set_path_name "LD_LIBRARY_PATH"
                                       (set_platform "Linux" (initial ∅))))
                "/usr/local/MATLAB/R2022a"
                "/opt/y/bin/glnxa64"
                [] [] "/opt/y/bin/glnxa64")
      as (s3 & _ & _ & Hfiles & _ & _ & Hrun).
    + reflexivity.
    + reflexivity.
    + now right.
    + reflexivity.
    + reflexivity.
    + reflexivity.
    + constructor.
    + split; [reflexivity | split; [reflexivity | intros s; reflexivity]].
    + reflexivity.
    + exists s3. split; [| exact Hfiles]. exact (Hrun _ eq_refl).
Defined.


(** ** Instances *)

Lemma find_matlab_key_sound_complete_witness :
  (exists sub_key,
     _find_matlab_key_from_windows_registry ["9.11.0"; "9.12.3"] (initial ∅)
     = (Ok sub_key, initial ∅))
  /\ forall e s',
       _find_matlab_key_from_windows_registry ["9.10.0"] (initial ∅)
       = (Raise e, s') ->
       s' = initial ∅ /\ exists msg, e = RuntimeError msg.
Proof.
  split.
  - apply (proj1 (proj2 (find_matlab_key_sound_complete
                           ["9.11.0"; "9.12.3"] (initial ∅)))).
    exists "9.12.3". split; [right; left; reflexivity | reflexivity].
  - apply (find_matlab_key_sound_complete ["9.10.0"] (initial ∅)).
Defined.

Lemma windows_reg_root_iff_witness :
  get_matlab_root_from_windows_reg (windows_host example_registry) (initial ∅)
  = (Ok "C:\Program Files\MATLAB\R2022a", initial ∅)
  /\ get_matlab_root_from_windows_reg (windows_host no_registry) (initial ∅)
     = (Raise (RuntimeError (no_windows_install ++ " [WinError 2]")),
        initial ∅)
  /\ get_matlab_root_from_windows_reg (windows_host unreadable_registry)
       (initial ∅)
     = (Raise (RuntimeError (no_windows_install ++ " [WinError 2]")),
        initial ∅).
Proof.
  split; [| split].
  - apply (proj1 (windows_reg_root_iff (windows_host example_registry)
                    (initial ∅))).
    split; [reflexivity |]. exists ["9.11.0"], "9.12.3", [].
    repeat split. repeat constructor.
  - apply (proj1 (proj2 (windows_reg_root_iff (windows_host no_registry)
                           (initial ∅)))).
    reflexivity.
  - apply (proj2 (proj2 (windows_reg_root_iff
                           (windows_host unreadable_registry) (initial ∅)))
             [] "9.12" []); [reflexivity | constructor | reflexivity
                             | reflexivity].
Defined.

Lemma search_returns_verified_root_witness :
  isdir example_tree "/opt/y" = true
  /\ exists path,
       In path ["/opt/x/bin/glnxa64"; "/opt/y/bin/glnxa64/"]
       /\ accepted (linux_with_path "/opt/x/bin/glnxa64:/opt/y/bin/glnxa64/")
            "glnxa64" path.
Proof.
  destruct (search_returns_verified_root
              (linux_with_path "/opt/x/bin/glnxa64:/opt/y/bin/glnxa64/")
              linux_state (set_found_matlab (Some "R2022a") linux_state)
              "/opt/y" eq_refl)
    as (_ & Hdir & path_string & pre & path & post & Henv & Hsplit & _
        & Hacc & _).
  split; [exact Hdir |]. exists path. split; [| exact Hacc].
  vm_compute in Henv. injection Henv as <-.
  change (Str.split _ _) with ["/opt/x/bin/glnxa64"; "/opt/y/bin/glnxa64/"]
    in Hsplit.
  rewrite Hsplit. apply in_or_app. right. now left.
Defined.

Lemma search_exceptions_witness :
  (exists path,
     has_marker (linux_with_path "/opt/x/bin/glnxa64:/opt/bad/bin/glnxa64")
       path = true
     /\ xml_parse example_tree
          (posixpath.join
             (possible_root
                (linux_with_path "/opt/x/bin/glnxa64:/opt/bad/bin/glnxa64")
                path) ["VersionInfo.xml"])
        = Malformed)
  /\ (exists path,
        In path ["/opt/enc/bin/glnxa64"]
        /\ xml_parse tree_unknown_encoding
             (posixpath.join
                (possible_root
                   (linux_host {[ "LD_LIBRARY_PATH" := "/opt/enc/bin/glnxa64" ]}
                      tree_unknown_encoding) path) ["VersionInfo.xml"])
           = Fails (PyError "LookupError" "unknown encoding")).
Proof.
  split.
  - destruct (search_exceptions
                (linux_with_path "/opt/x/bin/glnxa64:/opt/bad/bin/glnxa64")
                linux_state linux_state ParseError eq_refl)
      as [[msg Hmsg]
         | (path_string & path & _ & _ & _ & Hmark & _ & [[Hxml _] | Hxml])];
      [discriminate | exists path; split; [exact Hmark | exact Hxml] |].
    exists "/opt/bad/bin/glnxa64". split; reflexivity.
  - assert (Hsearch :
      search_path_for_directory_unix
        (linux_host {[ "LD_LIBRARY_PATH" := "/opt/enc/bin/glnxa64" ]}
           tree_unknown_encoding) linux_state
      = (Raise (PyError "LookupError" "unknown encoding"), linux_state))
      by (vm_compute; reflexivity).
    destruct (search_exceptions _ _ _ _ Hsearch)
      as [[msg Hmsg]
         | (path_string & path & Henv & Hin & _ & _ & _ & [[Hxml _] | Hxml])];
      [discriminate | exists "/opt/enc/bin/glnxa64"; split;
                        [now left | reflexivity] |].
    exists path. split; [| exact Hxml].
    vm_compute in Henv. injection Henv as <-. exact Hin.
Defined.

Lemma search_failure_by_last_release_witness :
  fst (search_path_for_directory_unix
         (linux_host {[ "LD_LIBRARY_PATH" := "/opt/v/bin/glnxa64" ]}
            example_tree_versions) linux_state)
  = Raise (RuntimeError (incompatible_ver "R2021b" "9.11"))
  /\ fst (search_path_for_directory_unix
            (linux_host
               {[ "LD_LIBRARY_PATH" := "/opt/v/bin/glnxa64:/opt/n/bin/glnxa64" ]}
               example_tree_versions) linux_state)
     = Raise (RuntimeError
                (set_path "LD_LIBRARY_PATH" "glnxa64" "LD_LIBRARY_PATH")).
Proof.
  assert (Hrej : forall h dir,
    (forall s, fst (verify_matlab_release h (possible_root h dir) s)
               = Ok false) ->
    rejected h "glnxa64" dir).
  { intros h dir Hver. right. right. exact Hver. }
  split.
  - apply (search_failure_by_last_release
             (linux_host {[ "LD_LIBRARY_PATH" := "/opt/v/bin/glnxa64" ]}
                example_tree_versions) linux_state "/opt/v/bin/glnxa64"
             [] [] "/opt/v/bin/glnxa64" (Some "9.11"));
      try reflexivity;
      repeat match goal with
             | |- Forall _ (_ ++ _) => simpl
             | |- Forall _ _ => constructor
             | |- rejected _ _ _ => apply Hrej; intros s; reflexivity
             end.
  - apply (search_failure_by_last_release
             (linux_host
                {[ "LD_LIBRARY_PATH" := "/opt/v/bin/glnxa64:/opt/n/bin/glnxa64" ]}
                example_tree_versions) linux_state
             "/opt/v/bin/glnxa64:/opt/n/bin/glnxa64"
             ["/opt/v/bin/glnxa64"] [] "/opt/n/bin/glnxa64" None);
      try reflexivity;
      repeat match goal with
             | |- Forall _ (_ ++ _) => simpl
             | |- Forall _ _ => constructor
             | |- rejected _ _ _ => apply Hrej; intros s; reflexivity
             end.
Defined.

Lemma create_path_list_round_trip_witness :
  Str.join ":" ["/opt/x/bin/glnxa64"; ""; "/opt/y/bin/glnxa64/"]
  = "/opt/x/bin/glnxa64::/opt/y/bin/glnxa64/".
Proof.
  destruct (create_path_list_round_trip
              (linux_with_path "/opt/x/bin/glnxa64::/opt/y/bin/glnxa64/")
              linux_state linux_state
              ["/opt/x/bin/glnxa64"; ""; "/opt/y/bin/glnxa64/"] eq_refl)
    as (_ & _ & _ & Henv).
  apply (f_equal (default "")) in Henv. symmetry. exact Henv.
Defined.

Lemma possible_root_of_bin_arch_witness :
  possible_root (linux_with_path "") "/usr/local/MATLAB/R2022a/bin/glnxa64"
  = "/usr/local/MATLAB/R2022a"
  /\ possible_root (linux_with_path "") "/opt/./matlab/bin/glnxa64/"
     = "/opt/matlab".
Proof.
  split.
  - apply (possible_root_of_bin_arch (linux_with_path "")
             "/usr/local/MATLAB/R2022a" "glnxa64");
      [discriminate | right; left; reflexivity | reflexivity | reflexivity].
  - apply (possible_root_of_bin_arch (linux_with_path "")
             "/opt/./matlab" "glnxa64");
      [discriminate | right; left; reflexivity | reflexivity | reflexivity].
Defined.

Lemma has_ending_iff_witness :
  has_ending (linux_with_path "") "glnxa64" "/opt/xbin/glnxa64" = true
  /\ has_ending (linux_with_path "") "glnxa64" "/opt/x/bin/glnxa64/" = true.
Proof.
  split.
  - apply (has_ending_iff (linux_with_path "") "glnxa64" "/opt/xbin/glnxa64");
      [discriminate | reflexivity |].
    exists "/opt/x". now left.
  - apply (has_ending_iff (linux_with_path "") "glnxa64" "/opt/x/bin/glnxa64/");
      [discriminate | reflexivity |].
    exists "/opt/x/". now right.
Defined.

(** ** The two guards of [run] *)

Lemma python_version_unsupported (h : host) (s : state) :
  version_info h <> (3, 8)%N -> version_info h <> (3, 9)%N ->
  set_python_version h s
  = (Raise (RuntimeError
       (unsupported_python
          (Str.of_N (fst (version_info h)) ++ "."
           ++ Str.of_N (snd (version_info h))) (str_supported h))),
     set_python_ver
       (Str.of_N (fst (version_info h)) ++ "."
        ++ Str.of_N (snd (version_info h))) s).
Proof.
  intros H38 H39.
  unfold set_python_version, bind, modify, get, raise, ret. simpl.
  case_bool_decide as Hin; [| reflexivity].
  exfalso. unfold SUPPORTED_PYTHON_VERSIONS in Hin.
  destruct (version_info h) as [major minor]. simpl in Hin.
  apply elem_of_union in Hin as [Hin | Hin]; apply elem_of_singleton in Hin.
  - apply (python_ver_inj major minor 3 8) in Hin as [-> ->]. now apply H38.
  - apply (python_ver_inj major minor 3 9) in Hin as [-> ->]. now apply H39.
Qed.

(** X16. [run] stops at its two guards before anything is looked for: on a
    platform that is not supported, and then on a version of Python that
    is not, it raises the error of the guard whatever the file system,
    the environment and the registry hold, and writes no file. *)
Theorem run_stops_at_guards (h : host) (f : filesystem)
  (env : gmap string string) (r : registry) (s : state) :
  let h' := with_reg r (with_environ env (with_fs f h)) in
  (system h <> "Windows" -> system h <> "Linux" -> system h <> "Darwin" ->
   run h' s
   = (Raise (RuntimeError (unsupported_platform (system h))),
      set_platform (system h) s))
  /\ (forall s1,
        set_platform_and_arch h s = (Ok tt, s1) ->
        version_info h <> (3, 8)%N -> version_info h <> (3, 9)%N ->
        run h' s
        = (Raise (RuntimeError
             (unsupported_python
                (Str.of_N (fst (version_info h)) ++ "."
                 ++ Str.of_N (snd (version_info h))) (str_supported h))),
           set_python_ver
             (Str.of_N (fst (version_info h)) ++ "."
              ++ Str.of_N (snd (version_info h))) s1)
        /\ files s1 = files s).
Proof.
  intros h'. split.
  - intros Hw Hl Hd. apply bind_raise.
    unfold set_platform_and_arch, bind, modify, get, raise. simpl.
    destruct (PLATFORM_DICT !! system h) as [name|] eqn:Hname; [| reflexivity].
    exfalso. unfold PLATFORM_DICT in Hname.
    apply lookup_insert_Some in Hname as [[Heq _] | [_ Hname]];
      [congruence |].
    apply lookup_insert_Some in Hname as [[Heq _] | [_ Hname]];
      [congruence |].
    apply lookup_singleton_Some in Hname as [Heq _]. congruence.
  - intros s1 Hplat H38 H39. split.
    + unfold run.
      rewrite (bind_ok (set_platform_and_arch h') _ s s1 tt Hplat).
      apply bind_raise. now apply (python_version_unsupported h').
    + pose proof (set_platform_and_arch_files h s) as Hf.
      now rewrite Hplat in Hf.
Qed.

Lemma run_stops_at_guards_witness :
  run freebsd_host (initial ∅)
  = (Raise (RuntimeError "FreeBSD is not a supported platform."),
     set_platform "FreeBSD" (initial ∅))
  /\ fst (run linux_python_3_10 (initial ∅))
     = Raise (RuntimeError
                "3.10 is not supported. The supported Python versions are {'3.9', '3.8'}.").
Proof.
  split.
  - apply (proj1 (run_stops_at_guards freebsd_host (example_fs [] [] []) ∅
                    no_registry (initial ∅))); discriminate.
  - destruct (proj2 (run_stops_at_guards linux_python_3_10 example_tree ∅
                       no_registry (initial ∅))
                (set_arch "glnxa64" (set_path_name "LD_LIBRARY_PATH"
                                       (set_platform "Linux" (initial ∅))))
                eq_refl) as [Hrun _]; [discriminate | discriminate |].
    change (run linux_python_3_10 (initial ∅))
      with (run (with_reg no_registry
                   (with_environ ∅ (with_fs example_tree linux_python_3_10)))
              (initial ∅)).
    now rewrite Hrun.
Defined.
